(** * priority-notify: the event broker, identity resolution and the
      notification status update, embedded from the Python sources

    - [Sse]            app/sse.py          (SSEBroker)
    - [Auth]           app/auth.py         (SessionManager, user resolution)
    - [Tokens]         app/routes/tokens.py
    - [Notifications]  app/routes/notifications.py

    Python dictionaries and sets are finite maps and finite sets; a queue
    object is a handle into a store of FIFO lists, so that two references
    to one queue see the same contents; database tables are lists of rows
    in scan order. *)

From Stdlib Require Import ZArith Lia.
From stdpp Require Import base option list gmap sets strings sorting.

Set Warnings "-register-all,-clear-no-such-hyp".
Local Open Scope string_scope.
Local Open Scope list_scope.

(** ** JSON-shaped Python values

    The [data] argument of [publish]. *)
Inductive json :=
  | JNull
  | JStr (s : string)
  | JArr (items : list json)
  | JObj (members : list (string * json)).

(** ** app/sse.py *)
Module Sse.

(** [{"event": event_type, "data": json.dumps(data)}] *)
Record event := Event { ev_event : string; ev_data : string }.

(** An [asyncio.Queue] object is identified by its handle. *)
Definition handle := nat.

(** The broker's [_subscribers] dictionary together with the queue
    objects it refers to. The queues outlive their registration: the
    stream endpoint keeps its reference after [unsubscribe]. *)
Record broker := Broker {
  subscribers : gmap string (gset handle);
  queues : gmap handle (list event)
}.

Definition empty_broker : broker := Broker ∅ ∅.

(** [d[k]] on a [defaultdict(set)]: a missing key is inserted with the
    empty set before its value is returned. *)
Definition defaultdict_getitem (k : string) (d : gmap string (gset handle))
  : gset handle * gmap string (gset handle) :=
  match d !! k with
  | Some s => (s, d)
  | None => (∅, <[k := ∅]> d)
  end.

(** [d.get(k, set())]: no insertion. *)
Definition dict_get (k : string) (d : gmap string (gset handle)) : gset handle :=
  default ∅ (d !! k).

(** [queue.put(event)] on an unbounded queue: appended at the tail, the
    call never waits. *)
Definition queue_put (ev : event) (q : handle) (h : gmap handle (list event))
  : gmap handle (list event) :=
  alter (λ l, l ++ [ev]) q h.

(** [queue.get()] when an item is available: the head is removed. *)
Definition queue_get (q : handle) (h : gmap handle (list event))
  : option (event * gmap handle (list event)) :=
  match h !! q with
  | Some (ev :: l) => Some (ev, <[q := l]> h)
  | _ => None
  end.

(** [n] successive [queue.get()] calls on one queue, as the stream
    endpoint makes them, for as long as an item is there. *)
Fixpoint queue_get_n (n : nat) (q : handle) (h : gmap handle (list event))
  : list event :=
  match n with
  | O => []
  | S n' =>
      match queue_get q h with
      | Some (ev, h') => ev :: queue_get_n n' q h'
      | None => []
      end
  end.

Definition subscribe (user_id : string) (b : broker) : handle * broker :=
  let queue := fresh (dom (queues b)) in
  let '(s, d) := defaultdict_getitem user_id (subscribers b) in
  (queue, Broker (<[user_id := s ∪ {[queue]}]> d) (<[queue := []]> (queues b))).

Definition unsubscribe (user_id : string) (queue : handle) (b : broker) : broker :=
  let '(s, d) := defaultdict_getitem user_id (subscribers b) in
  let d1 := <[user_id := s ∖ {[queue]}]> d in
  let '(s2, d2) := defaultdict_getitem user_id d1 in
  let d3 := if decide (s2 = ∅) then delete user_id d2 else d2 in
  Broker d3 (queues b).

Section publish.
(** [json.dumps] is the standard library's; nothing here depends on
    the text it produces. *)
Variable json_dumps : json → string.

Definition mk_event (event_type : string) (data : json) : event :=
  Event event_type (json_dumps data).

Definition publish (user_id event_type : string) (data : json) (b : broker)
  : broker :=
  let ev := mk_event event_type data in
  Broker (subscribers b)
         (foldl (λ h q, queue_put ev q h) (queues b)
                (elements (dict_get user_id (subscribers b)))).

(** Successive [publish] calls for one user. *)
Definition publish_all (user_id : string) (evs : list (string * json))
  (b : broker) : broker :=
  foldl (λ b e, publish user_id e.1 e.2 b) b evs.

(** The calls a client of the broker can make. *)
Inductive op :=
  | Subscribe (user_id : string)
  | Unsubscribe (user_id : string) (queue : handle)
  | Publish (user_id event_type : string) (data : json).

Definition run_op (b : broker) (o : op) : broker :=
  match o with
  | Subscribe u => (subscribe u b).2
  | Unsubscribe u q => unsubscribe u q b
  | Publish u t d => publish u t d b
  end.

Definition run (ops : list op) (b : broker) : broker := foldl run_op b ops.
End publish.

(** Every registered user has at least one channel. *)
Definition no_empty_entry (b : broker) : Prop :=
  ∀ u s, subscribers b !! u = Some s → s ≠ ∅.

(** Every registered channel is an allocated queue. *)
Definition channels_allocated (b : broker) : Prop :=
  ∀ u s q, subscribers b !! u = Some s → q ∈ s → is_Some (queues b !! q).

(** No channel is registered under two users. *)
Definition channels_disjoint (b : broker) : Prop :=
  ∀ u v s s' q,
    u ≠ v → subscribers b !! u = Some s → subscribers b !! v = Some s' →
    q ∈ s → q ∉ s'.

End Sse.

(** ** Exceptions and the request monad *)

(** The exceptions that the modelled code raises or lets through.
    [SignatureExpired] is a subclass of [BadSignature] in itsdangerous;
    [BadPayload] is not. [ValueError] is what bcrypt raises for a
    password of more than 72 bytes, [OverflowError] what the SQLite
    driver raises for an integer parameter outside 64 bits. *)
Inductive exn :=
  | HTTPException (status_code : Z) (detail : string)
  | BadSignature
  | SignatureExpired
  | BadPayload
  | KeyError
  | TypeError
  | ValueError
  | OverflowError
  | MultipleResultsFound
  | IntegrityError.

Inductive result (A : Type) :=
  | Ok (a : A)
  | Raise (e : exn).
Arguments Ok {A} a.
Arguments Raise {A} e.

(** A handler runs against a state [S] (the database, or the database
    and the broker); what it committed before raising stays committed. *)
Definition M (S A : Type) : Type := S → result A * S.

Definition raise {S A} (e : exn) : M S A := λ s, (Raise e, s).
Definition get {S} : M S S := λ s, (Ok s, s).
Definition modify {S} (f : S → S) : M S unit := λ s, (Ok tt, f s).
Definition lift_result {S A} (r : result A) : M S A := λ s, (r, s).

#[export] Instance M_ret {S} : MRet (M S) := λ A a s, (Ok a, s).
#[export] Instance M_bind {S} : MBind (M S) := λ A B k m s,
  match m s with
  | (Ok a, s') => k a s'
  | (Raise e, s') => (Raise e, s')
  end.

#[export] Instance result_ret : MRet result := λ A a, Ok a.
#[export] Instance result_bind : MBind result := λ A B k r,
  match r with
  | Ok a => k a
  | Raise e => Raise e
  end.

(** [Result.scalar_one_or_none()] *)
Definition scalar_one_or_none {A} (rows : list A) : result (option A) :=
  match rows with
  | [] => Ok None
  | [r] => Ok (Some r)
  | _ => Raise MultipleResultsFound
  end.

(** ** app/models.py

    A [datetime] is a number of seconds; a table is the list of its rows
    in the order a full scan returns them. *)
Inductive Priority := low | medium | high | critical.
Inductive Status := unread | read | archived.
Inductive DeviceType := android | gnome | other.

#[export] Instance Status_eq_dec : EqDecision Status.
Proof. solve_decision. Defined.

(** [Status.value] *)
Definition Status_value (s : Status) : string :=
  match s with
  | unread => "unread"
  | read => "read"
  | archived => "archived"
  end.

Module User.
Record t := mk {
  id : string;
  sub : string;
  email : string;
  name : string;
  created_at : Z;
  last_login_at : Z
}.
End User.

Module Notification.
Record t := mk {
  id : string;
  user_id : string;
  title : string;
  message : option string;
  priority : Priority;
  status : Status;
  source : option string;
  created_at : Z;
  read_at : option Z;
  metadata_ : option json
}.

Definition set_status (v : Status) (n : t) : t :=
  mk (id n) (user_id n) (title n) (message n) (priority n) v (source n)
     (created_at n) (read_at n) (metadata_ n).

Definition set_read_at (v : option Z) (n : t) : t :=
  mk (id n) (user_id n) (title n) (message n) (priority n) (status n)
     (source n) (created_at n) v (metadata_ n).
End Notification.

Module ClientToken.
Record t := mk {
  id : string;
  user_id : string;
  token_hash : string;
  name : string;
  device_type : DeviceType;
  last_used_at : option Z;
  created_at : Z;
  expires_at : option Z
}.

Definition set_last_used_at (v : option Z) (ct : t) : t :=
  mk (id ct) (user_id ct) (token_hash ct) (name ct) (device_type ct) v
     (created_at ct) (expires_at ct).
End ClientToken.

(** The three tables behind an [AsyncSession]. *)
Record database := Database {
  users : list User.t;
  client_tokens : list ClientToken.t;
  notifications : list Notification.t
}.

Definition set_client_tokens (v : list ClientToken.t) (db : database) : database :=
  Database (users db) v (notifications db).

Definition set_notifications (v : list Notification.t) (db : database) : database :=
  Database (users db) (client_tokens db) v.

(** [select(User).where(User.id == user_id)] *)
Definition select_user (user_id : string) (db : database) : list User.t :=
  List.filter (λ u, bool_decide (User.id u = user_id)) (users db).

(** The primary key of a table: no two rows share an id. *)
Definition tokens_pk (db : database) : Prop :=
  NoDup (ClientToken.id <$> client_tokens db).

Definition notifications_pk (db : database) : Prop :=
  NoDup (Notification.id <$> notifications db).

(** ** app/auth.py *)
Module Auth.

Definition SESSION_COOKIE : string := "session".
Definition SESSION_MAX_AGE : Z := 60 * 60 * 24 * 7.

(** *** The session serializer (itsdangerous [URLSafeTimedSerializer])

    A token string has the serializer's shape
    [payload.timestamp.signature] or it does not. The signed payload
    bytes decode to a JSON object, to some other JSON value, or do not
    decode at all. Object members are strings: [create_session] writes
    no other kind. *)
Inductive payload :=
  | Undecodable (raw : string)
  | Object (members : list (string * string))
  | NonObject (text : string).

Inductive token :=
  | Unsigned (s : string)
  | Signed (p : payload) (timestamp : Z) (signature : string).

(** What [loads] hands back. *)
Inductive pyobj :=
  | PyDict (members : list (string * string))
  | PyOther (text : string).

(** [not cookie]: only the empty string is falsy. *)
Definition token_is_empty (t : token) : bool :=
  match t with
  | Unsigned s => bool_decide (s = "")
  | Signed _ _ _ => false
  end.

(** [dict[key]] *)
Fixpoint dict_lookup (key : string) (members : list (string * string))
  : option string :=
  match members with
  | [] => None
  | (k, v) :: rest => if bool_decide (k = key) then Some v else dict_lookup key rest
  end.

(** [data[key]] *)
Definition getitem (data : pyobj) (key : string) : result string :=
  match data with
  | PyDict members =>
      match dict_lookup key members with
      | Some v => Ok v
      | None => Raise KeyError
      end
  | PyOther _ => Raise TypeError
  end.

(** The clause [except (BadSignature, SignatureExpired, KeyError)]. *)
Definition caught_by_validate_session (e : exn) : bool :=
  match e with
  | BadSignature | SignatureExpired | KeyError => true
  | _ => false
  end.

Section session.
(** The keyed signature over payload and timestamp. *)
Variable sign : string → payload → Z → string.

(** [serializer.dumps(obj)] at time [now]. *)
Definition dumps (secret_key : string) (obj : list (string * string))
  (now : Z) : token :=
  Signed (Object obj) now (sign secret_key (Object obj) now).

(** [serializer.loads(token, max_age=max_age)] at time [now]: the
    signature first, then the age, then the payload. *)
Definition loads (secret_key : string) (t : token) (max_age now : Z)
  : result pyobj :=
  match t with
  | Unsigned _ => Raise BadSignature
  | Signed p ts sig =>
      if negb (bool_decide (sig = sign secret_key p ts)) then Raise BadSignature
      else
        let age := (now - ts)%Z in
        if (max_age <? age)%Z then Raise SignatureExpired
        else if (age <? 0)%Z then Raise SignatureExpired
        else match p with
             | Undecodable _ => Raise BadPayload
             | Object members => Ok (PyDict members)
             | NonObject text => Ok (PyOther text)
             end
  end.

(** [SessionManager.create_session] *)
Definition create_session (secret_key user_id : string) (now : Z) : token :=
  dumps secret_key [("uid", user_id)] now.

(** [SessionManager.validate_session] *)
Definition validate_session (secret_key : string) (t : token) (now : Z)
  : result (option string) :=
  match (data ← loads secret_key t SESSION_MAX_AGE now; getitem data "uid") with
  | Ok uid => Ok (Some uid)
  | Raise e => if caught_by_validate_session e then Ok None else Raise e
  end.
End session.

(** *** Requests *)
Record Request := mkRequest {
  cookies : gmap string token;
  headers : gmap string string
}.

(** [s[n:]] *)
Definition string_from (n : nat) (s : string) : string :=
  String.substring n (String.length s - n) s.

(** [ct.last_used_at = now] followed by [db.commit()]. *)
Definition touch_token (ct : ClientToken.t) (now : Z) (db : database) : database :=
  set_client_tokens
    ((λ r, if bool_decide (ClientToken.id r = ClientToken.id ct)
           then ClientToken.set_last_used_at (Some now) r else r)
       <$> client_tokens db) db.

Section resolution.
Variable sign : string → payload → Z → string.
(** [bcrypt.hashpw(password, salt)] and [bcrypt.checkpw(password, hash)] *)
Variable hashpw : string → string → string.
Variable checkpw : string → string → bool.

Definition get_current_user_from_session (request : Request)
  (secret_key : string) (now : Z) : M database (option User.t) :=
  match cookies request !! SESSION_COOKIE with
  | None => mret None
  | Some cookie =>
      if token_is_empty cookie then mret None
      else
        user_id ← lift_result (validate_session sign secret_key cookie now);
        match user_id with
        | None => mret None
        | Some uid =>
            if bool_decide (uid = "") then mret None
            else db ← get; lift_result (scalar_one_or_none (select_user uid db))
        end
  end.

(** [bcrypt.checkpw(password, hash)] as the code calls it: bcrypt
    (from 5.0 on) refuses a password of more than 72 bytes with
    [ValueError], and compares otherwise. *)
Definition bcrypt_checkpw (password hash : string) : result bool :=
  if (72 <? String.length password)%nat then Raise ValueError
  else Ok (checkpw password hash).

(** The loop [for ct in tokens] of [get_current_user_from_token];
    nothing around the call to bcrypt catches what it raises. *)
Fixpoint check_tokens (raw_token : string) (now : Z)
  (tokens : list ClientToken.t) : M database (option User.t) :=
  match tokens with
  | [] => mret None
  | ct :: rest =>
      matched ← lift_result (bcrypt_checkpw raw_token (ClientToken.token_hash ct));
      if matched : bool then
        _ ← modify (touch_token ct now);
        db ← get;
        lift_result (scalar_one_or_none (select_user (ClientToken.user_id ct) db))
      else check_tokens raw_token now rest
  end.

Definition get_current_user_from_token (request : Request) (now : Z)
  : M database (option User.t) :=
  let auth_header := default "" (headers request !! "Authorization") in
  if negb (String.prefix "Bearer " auth_header) then mret None
  else
    let raw_token := string_from 7 auth_header in
    db ← get;
    check_tokens raw_token now (client_tokens db).

Definition get_current_user (request : Request) (secret_key : string)
  (now : Z) : M database User.t :=
  user ← get_current_user_from_session request secret_key now;
  match user with
  | Some u => mret u
  | None =>
      user ← get_current_user_from_token request now;
      match user with
      | Some u => mret u
      | None => raise (HTTPException 401 "Not authenticated")
      end
  end.

(** The second half of [get_current_user] on its own: what the
    token path makes of a request once the session path gave no
    user. *)
Definition token_outcome (request : Request) (now : Z) (db : database)
  : result User.t * database :=
  match get_current_user_from_token request now db with
  | (Ok (Some u), db') => (Ok u, db')
  | (Ok None, db') => (Raise (HTTPException 401 "Not authenticated"), db')
  | (Raise e, db') => (Raise e, db')
  end.

Definition require_session (request : Request) (secret_key : string)
  (now : Z) : M database User.t :=
  user ← get_current_user_from_session request secret_key now;
  match user with
  | Some u => mret u
  | None => raise (HTTPException 401 "Session required")
  end.

(** A run of bearer-authenticated requests, each at its own time: the
    database they leave behind. *)
Definition authenticate_all (requests : list (Request * Z)) (db : database)
  : database :=
  foldl (λ db r, (get_current_user_from_token r.1 r.2 db).2) db requests.

(** [hash_token]; the salt is what [bcrypt.gensalt()] drew. *)
Definition hash_token (token salt : string) : string := hashpw token salt.
End resolution.

End Auth.

(** ** app/routes/tokens.py *)
Module Tokens.

Section tokens.
Variable hashpw : string → string → string.

(** [db.add(token)] and [db.commit()]: the row goes to the end of the
    table unless its id or its hash (a unique column) is taken. *)
Definition insert_token (token : ClientToken.t) : M database unit :=
  db ← get;
  if existsb (λ r, bool_decide (ClientToken.id r = ClientToken.id token)
                   || bool_decide (ClientToken.token_hash r = ClientToken.token_hash token))
             (client_tokens db)
  then raise IntegrityError
  else modify (set_client_tokens (client_tokens db ++ [token])).

(** [create_token]. The drawn values come from outside: [plaintext]
    from [generate_api_token()], [salt] from [bcrypt.gensalt()],
    [new_id] from [uuid.uuid4()]. The result is the stored row and the
    plaintext, shown this once. *)
Definition create_token (name : string) (device_type : DeviceType)
  (user : User.t) (plaintext salt new_id : string) (now : Z)
  : M database (ClientToken.t * string) :=
  let hashed := Auth.hash_token hashpw plaintext salt in
  let token := ClientToken.mk new_id (User.id user) hashed name device_type
                              None now None in
  _ ← insert_token token;
  mret (token, plaintext).

(** [db.delete(token)] and [db.commit()] *)
Definition delete_token (token : ClientToken.t) (db : database) : database :=
  set_client_tokens
    (List.filter (λ r, negb (bool_decide (ClientToken.id r = ClientToken.id token)))
                 (client_tokens db)) db.

Definition revoke_token (token_id : string) (user : User.t) : M database unit :=
  db ← get;
  token ← lift_result (scalar_one_or_none
    (List.filter (λ r, bool_decide (ClientToken.id r = token_id)
                       && bool_decide (ClientToken.user_id r = User.id user))
                 (client_tokens db)));
  match token with
  | None => raise (HTTPException 404 "Token not found")
  | Some t => modify (delete_token t)
  end.
End tokens.

End Tokens.

(** ** app/routes/notifications.py *)
Module Notifications.

(** The process state a notification handler works on. *)
Record app := App {
  db : database;
  broker : Sse.broker
}.

Definition on_db (f : database → database) (a : app) : app :=
  App (f (db a)) (broker a).

Definition on_broker (f : Sse.broker → Sse.broker) (a : app) : app :=
  App (db a) (f (broker a)).

(** schemas.py *)
Record NotificationCreate := mkCreate {
  c_title : string;
  c_message : option string;
  c_priority : Priority;
  c_source : option string;
  c_metadata : option json
}.

Record NotificationUpdate := mkUpdate { u_status : option Status }.

(** [select(Notification).where(Notification.id == notification_id,
    Notification.user_id == user.id)] *)
Definition select_owned (notification_id : string) (user : User.t)
  (d : database) : list Notification.t :=
  List.filter (λ n, bool_decide (Notification.id n = notification_id)
                    && bool_decide (Notification.user_id n = User.id user))
              (notifications d).

(** The attribute assignments of [update_notification]. *)
Definition apply_update (payload : NotificationUpdate) (now : Z)
  (notification : Notification.t) : Notification.t :=
  match u_status payload with
  | Some st =>
      let n := Notification.set_status st notification in
      if bool_decide (st = read) && bool_decide (Notification.read_at n = None)
      then Notification.set_read_at (Some now) n
      else n
  | None => notification
  end.

(** [db.commit()] for a loaded notification: its row takes the object's
    state. *)
Definition store_notification (n : Notification.t) (d : database) : database :=
  set_notifications
    ((λ r, if bool_decide (Notification.id r = Notification.id n) then n else r)
       <$> notifications d) d.

(** [{"id": notification.id, "status": notification.status.value}] *)
Definition status_change_data (n : Notification.t) : json :=
  JObj [("id", JStr (Notification.id n));
        ("status", JStr (Status_value (Notification.status n)))].

Section handlers.
Variable json_dumps : json → string.
(** [NotificationResponse.model_dump(mode="json")] *)
Variable model_dump : Notification.t → json.

(** [create_notification]; [new_id] is the drawn uuid, [now] the
    server default of [created_at]. *)
Definition create_notification (payload : NotificationCreate) (user : User.t)
  (new_id : string) (now : Z) : M app Notification.t :=
  let notification :=
    Notification.mk new_id (User.id user) (c_title payload) (c_message payload)
                    (c_priority payload) unread (c_source payload) now None
                    (c_metadata payload) in
  a ← get;
  if existsb (λ r, bool_decide (Notification.id r = new_id)) (notifications (db a))
  then raise IntegrityError
  else
    _ ← modify (on_db (λ d, set_notifications (notifications d ++ [notification]) d));
    let response := notification in
    _ ← modify (on_broker (Sse.publish json_dumps (User.id user) "notification"
                                       (model_dump response)));
    mret response.

Definition update_notification (notification_id : string)
  (payload : NotificationUpdate) (user : User.t) (now : Z)
  : M app Notification.t :=
  a ← get;
  found ← lift_result (scalar_one_or_none (select_owned notification_id user (db a)));
  match found with
  | None => raise (HTTPException 404 "Notification not found")
  | Some n =>
      let notification := apply_update payload now n in
      _ ← modify (on_db (store_notification notification));
      let response := notification in
      _ ← modify (on_broker (Sse.publish json_dumps (User.id user) "status_change"
                                         (status_change_data notification)));
      mret response
  end.
End handlers.

(** Successive status updates of one notification object, each at its
    own time. *)
Definition apply_updates (ps : list (NotificationUpdate * Z))
  (n : Notification.t) : Notification.t :=
  foldl (λ n p, apply_update p.1 p.2 n) n ps.

(** The time of the first update in [ps] that asks for [read]. *)
Fixpoint first_read (ps : list (NotificationUpdate * Z)) : option Z :=
  match ps with
  | [] => None
  | (p, t) :: rest =>
      if bool_decide (u_status p = Some read) then Some t else first_read rest
  end.

End Notifications.

(** ** Query clauses *)
Module Query.

(** [x] may come before [y] in a listing by descending [column]. *)
Definition desc_by {A} (column : A → Z) : relation A :=
  λ x y, (column y ≤ column x)%Z.

#[export] Instance desc_by_dec {A} (column : A → Z) x y :
  Decision (desc_by column x y).
Proof. unfold desc_by. apply _. Defined.

(** One more row for a listing by descending [column]: it goes in
    front of the first row that is not larger. *)
Fixpoint insert_desc {A} (column : A → Z) (x : A) (sorted : list A) : list A :=
  match sorted with
  | [] => [x]
  | y :: rest =>
      if (column y <=? column x)%Z then x :: sorted
      else y :: insert_desc column x rest
  end.

(** [order_by(column.desc())]: the rows, largest [column] first. SQL
    leaves the order of rows with equal [column] to the engine; here
    they come last inserted first, as SQLite returns them. *)
Definition order_by_desc {A} (column : A → Z) (rows : list A) : list A :=
  foldl (λ sorted x, insert_desc column x sorted) [] rows.

(** An integer parameter the SQLite driver can bind: 64 bits, signed. *)
Definition sqlite_integer (n : Z) : bool :=
  (- 2 ^ 63 <=? n)%Z && (n <? 2 ^ 63)%Z.

(** [offset(n)], as SQLite reads it: a negative offset is no offset;
    an [n] outside 64 bits is refused when the statement is run. *)
Definition sql_offset {A} (n : Z) (rows : list A) : result (list A) :=
  if sqlite_integer n then Ok (drop (Z.to_nat n) rows)
  else Raise OverflowError.

(** [limit(n)], as SQLite reads it: a negative limit is no limit; an
    [n] outside 64 bits is refused when the statement is run. *)
Definition sql_limit {A} (n : Z) (rows : list A) : result (list A) :=
  if sqlite_integer n
  then Ok (if (n <? 0)%Z then rows else take (Z.to_nat n) rows)
  else Raise OverflowError.

End Query.

(** ** app/routes/tokens.py, the listing *)
Module TokenViews.

(** schemas.py: [TokenResponse] has neither the hash nor the owner. *)
Record TokenResponse := mkTokenResponse {
  id : string;
  name : string;
  device_type : DeviceType;
  last_used_at : option Z;
  created_at : Z;
  expires_at : option Z
}.

(** [TokenResponse.model_validate(t)] *)
Definition model_validate (t : ClientToken.t) : TokenResponse :=
  mkTokenResponse (ClientToken.id t) (ClientToken.name t) (ClientToken.device_type t)
                  (ClientToken.last_used_at t) (ClientToken.created_at t)
                  (ClientToken.expires_at t).

(** [select(ClientToken).where(ClientToken.user_id == user.id)
    .order_by(ClientToken.created_at.desc())] *)
Definition select_tokens_of (user : User.t) (d : database) : list ClientToken.t :=
  Query.order_by_desc ClientToken.created_at
    (List.filter (λ r, bool_decide (ClientToken.user_id r = User.id user))
                 (client_tokens d)).

Definition list_tokens (user : User.t) : M database (list TokenResponse) :=
  d ← get;
  mret (model_validate <$> select_tokens_of user d).

End TokenViews.

(** ** app/routes/notifications.py, reading and deleting *)
Module NotificationViews.
Import Notifications.

#[export] Instance Priority_eq_dec : EqDecision Priority.
Proof. solve_decision. Defined.

(** schemas.py: [PaginatedResponse[NotificationResponse]] *)
Record PaginatedResponse := mkPage {
  items : list Notification.t;
  total : Z;
  limit : Z;
  offset : Z
}.

(** The [where] clauses of [list_notifications]. A filter is applied
    when its argument is truthy: a [datetime] and an enum member always
    are, a string is unless it is empty. *)
Definition matches (since : option Z) (status : option Status)
  (priority : option Priority) (source : option string) (user : User.t)
  (n : Notification.t) : bool :=
  bool_decide (Notification.user_id n = User.id user)
  && match since with
     | Some t => bool_decide (t < Notification.created_at n)%Z
     | None => true
     end
  && match status with
     | Some st => bool_decide (Notification.status n = st)
     | None => true
     end
  && match priority with
     | Some pr => bool_decide (Notification.priority n = pr)
     | None => true
     end
  && match source with
     | Some src =>
         if bool_decide (src = "") then true
         else bool_decide (Notification.source n = Some src)
     | None => true
     end.

(** [list_notifications]; [limit] and [offset] arrive checked against
    [le=200] and [ge=0]. *)
Definition list_notifications (since : option Z) (status : option Status)
  (priority : option Priority) (source : option string) (limit offset : Z)
  (user : User.t) : M app PaginatedResponse :=
  a ← get;
  let rows := List.filter (matches since status priority source user)
                          (notifications (db a)) in
  let total := Z.of_nat (length rows) in
  page ← lift_result
            (skipped ← Query.sql_offset offset
                          (Query.order_by_desc Notification.created_at rows);
             Query.sql_limit limit skipped);
  mret (mkPage page total limit offset).

Definition get_notification (notification_id : string) (user : User.t)
  : M app Notification.t :=
  a ← get;
  found ← lift_result (scalar_one_or_none (select_owned notification_id user (db a)));
  match found with
  | None => raise (HTTPException 404 "Notification not found")
  | Some n => mret n
  end.

(** [db.delete(notification)] and [db.commit()] *)
Definition delete_row (n : Notification.t) (d : database) : database :=
  set_notifications
    (List.filter (λ r, negb (bool_decide (Notification.id r = Notification.id n)))
                 (notifications d)) d.

Definition delete_notification (notification_id : string) (user : User.t)
  : M app unit :=
  a ← get;
  found ← lift_result (scalar_one_or_none (select_owned notification_id user (db a)));
  match found with
  | None => raise (HTTPException 404 "Notification not found")
  | Some n => modify (on_db (delete_row n))
  end.

End NotificationViews.

(** ** app/routes/auth.py *)
Module Oidc.

(** config.py, the settings the login flow reads. *)
Record Settings := mkSettings {
  SECRET_KEY : string;
  AUTHENTIK_CLIENT_ID : string;
  AUTHENTIK_REDIRECT_URI : string
}.

(** A [RedirectResponse], with the session cookie it sets or deletes. *)
Record RedirectResponse := Redirect {
  url : string;
  status_code : Z;
  set_cookie : option Auth.token;
  delete_cookie : bool
}.

(** The module-level [_pending_states] set and the database. *)
Record state := State {
  pending_states : gset string;
  db : database
}.

Definition on_pending (f : gset string → gset string) (st : state) : state :=
  State (f (pending_states st)) (db st).

Definition on_users (f : list User.t → list User.t) (st : state) : state :=
  State (pending_states st)
        (Database (f (users (db st))) (client_tokens (db st)) (notifications (db st))).

(** [dict[key]] where a missing key raises. *)
Definition dict_getitem (key : string) (d : list (string * string)) : result string :=
  match Auth.dict_lookup key d with
  | Some v => Ok v
  | None => Raise KeyError
  end.

(** [dict.get(key, default)] *)
Definition dict_get_default (key : string) (d : list (string * string))
  (default_value : string) : string :=
  default default_value (Auth.dict_lookup key d).

(** auth.py: [build_authorization_url]; the dictionary is joined in
    the order it is written, nothing is escaped. *)
Definition build_authorization_url (oidc_config : list (string * string))
  (settings : Settings) (state : string) : result string :=
  endpoint ← dict_getitem "authorization_endpoint" oidc_config;
  mret (endpoint +:+ "?"
        +:+ "response_type=code"
        +:+ "&client_id=" +:+ AUTHENTIK_CLIENT_ID settings
        +:+ "&redirect_uri=" +:+ AUTHENTIK_REDIRECT_URI settings
        +:+ "&scope=openid email profile"
        +:+ "&state=" +:+ state).

(** [login]. [drawn] is what [secrets.token_urlsafe(32)] gave,
    [oidc_config] what [get_oidc_config] gave: the provider's
    configuration, or the error of the request for it. *)
Definition login (settings : Settings) (drawn : string)
  (oidc_config : result (list (string * string))) : M state RedirectResponse :=
  _ ← modify (on_pending (λ s, s ∪ {[drawn]}));
  cfg ← lift_result oidc_config;
  location ← lift_result (build_authorization_url cfg settings drawn);
  mret (Redirect location 307 None false).

(** The row of a returning user after [user.email = email],
    [user.name = name], [user.last_login_at = now]. *)
Definition refresh_user (email name : string) (now : Z) (u : User.t) : User.t :=
  User.mk (User.id u) (User.sub u) email name (User.created_at u) now.

(** [db.commit()] for a loaded user. *)
Definition store_user (u : User.t) (rows : list User.t) : list User.t :=
  (λ r, if bool_decide (User.id r = User.id u) then u else r) <$> rows.

(** [db.add(user)] and [db.commit()]: [id] is the primary key, [sub] a
    unique column. *)
Definition insert_user (u : User.t) : M state unit :=
  st ← get;
  if existsb (λ r, bool_decide (User.id r = User.id u)
                   || bool_decide (User.sub r = User.sub u))
             (users (db st))
  then raise IntegrityError
  else modify (on_users (λ rows, rows ++ [u])).

Section callback.
Variable sign : string → Auth.payload → Z → string.

(** [callback]. [id_claims] is what the three awaited calls to the
    provider ([get_oidc_config], [exchange_code_for_tokens],
    [validate_id_token]) gave for the request's [code]: the claims of
    the id token, or the first error; [new_id] is the drawn uuid of a
    new user. *)
Definition callback (settings : Settings) (state : string)
  (id_claims : result (list (string * string))) (new_id : string) (now : Z)
  : M Oidc.state RedirectResponse :=
  st ← get;
  if negb (bool_decide (state ∈ pending_states st))
  then mret (Redirect "/auth/login" 307 None false)
  else
    _ ← modify (on_pending (λ s, s ∖ {[state]}));
    claims ← lift_result id_claims;
    sub ← lift_result (dict_getitem "sub" claims);
    let email := dict_get_default "email" claims "" in
    let name := dict_get_default "name" claims
                  (dict_get_default "preferred_username" claims "") in
    st ← get;
    found ← lift_result (scalar_one_or_none
               (List.filter (λ u, bool_decide (User.sub u = sub)) (users (db st))));
    user ← match found with
           | Some u =>
               let u' := refresh_user email name now u in
               _ ← modify (on_users (store_user u'));
               mret u'
           | None =>
               let u' := User.mk new_id sub email name now now in
               _ ← insert_user u';
               mret u'
           end;
    let session_token := Auth.create_session sign (SECRET_KEY settings) (User.id user) now in
    mret (Redirect "/" 302 (Some session_token) false).
End callback.

Definition logout : RedirectResponse := Redirect "/" 302 None true.

End Oidc.

(** ** tests/conftest.py

    The fixtures of the test suite, with stand-ins for the keyed
    signature, for bcrypt and for [json.dumps], and a second user next
    to [test_user]. *)
Module Fixtures.

Definition sign (key : string) (p : Auth.payload) (ts : Z) : string := key.
Definition hashpw (password salt : string) : string := password.
Definition checkpw (password hash : string) : bool := bool_decide (password = hash).
Definition json_dumps (data : json) : string := "{}".

Definition SECRET_KEY : string := "change-me-to-a-random-secret".

Definition test_user : User.t :=
  User.mk "user-123" "test-sub-123" "test@example.com" "Test User" 0 0.

Definition other_user : User.t :=
  User.mk "user-456" "test-sub-456" "other@example.com" "Other User" 0 0.

Definition TEST_TOKEN_PLAINTEXT : string := "test-token-for-testing-only-1234".

(** A bearer token of 73 bytes. *)
Definition LONG_TOKEN : string :=
  "aaaaaaaaaaaaaaaaaaaaaaaaaaaaaaaaaaaaaaaaaaaaaaaaaaaaaaaaaaaaaaaaaaaaaaaaa".

Definition test_token : ClientToken.t :=
  ClientToken.mk "token-1" "user-123"
    (Auth.hash_token hashpw TEST_TOKEN_PLAINTEXT "salt-1")
    "Test Device" other None 0 None.

Definition other_token : ClientToken.t :=
  ClientToken.mk "token-2" "user-456"
    (Auth.hash_token hashpw "other-token" "salt-2")
    "Other Device" other None 0 None.

Definition test_notification : Notification.t :=
  Notification.mk "n-1" "user-123" "To read" None medium unread None 0 None None.

Definition test_db : database :=
  Database [test_user; other_user] [other_token; test_token] [test_notification].

Definition session_cookie : Auth.token :=
  Auth.create_session sign SECRET_KEY "user-123" 0.

(** [headers={"Authorization": f"Bearer {token}"}] *)
Definition bearer (token : string) : gmap string string :=
  {[ "Authorization" := String.append "Bearer " token ]}.

(** [cookies={"session": session_cookie}] *)
Definition with_session : gmap string Auth.token :=
  {[ "session" := session_cookie ]}.

(** The application with one open stream of [test_user]. *)
Definition test_app : Notifications.app :=
  Notifications.App test_db (Sse.subscribe "user-123" Sse.empty_broker).2.

(** A stand-in for [model_dump]. *)
Definition model_dump (n : Notification.t) : json :=
  JObj [("id", JStr (Notification.id n)); ("title", JStr (Notification.title n))].

(** Three notifications of two users. *)
Definition other_notification : Notification.t :=
  Notification.mk "n-2" "user-456" "Low one" None low read (Some "ci") 5 (Some 9%Z) None.

Definition second_notification : Notification.t :=
  Notification.mk "n-3" "user-123" "Critical one" None critical unread (Some "ci") 10 None None.

Definition inbox_db : database :=
  Database [test_user; other_user] [other_token; test_token]
           [test_notification; other_notification; second_notification].

Definition inbox_app : Notifications.app :=
  Notifications.App inbox_db (Sse.subscribe "user-123" Sse.empty_broker).2.

(** The login flow: settings, one pending state, the claims of a known
    and of a new user. *)
Definition settings : Oidc.Settings :=
  Oidc.mkSettings SECRET_KEY "priority-notify"
                  "https://notifications.osmosis.page/auth/callback".

Definition login_state : Oidc.state := Oidc.State {[ "state-1" ]} test_db.

Definition known_claims : list (string * string) :=
  [("sub", "test-sub-123"); ("email", "new@example.com");
   ("preferred_username", "tester")].

Definition new_claims : list (string * string) :=
  [("sub", "test-sub-789"); ("email", "third@example.com"); ("name", "Third User")].

End Fixtures.

(** * Tables under a primary key *)
Section table_facts.
Context {A : Type}.

Lemma filter_none (f : A → bool) (rows : list A) :
  (∀ r, r ∈ rows → f r = false) → List.filter f rows = [].
Proof.
  induction rows as [|r rows IH]; intros Hf; simpl; [done|].
  rewrite (Hf r) by left. apply IH. intros r' Hin. apply Hf. by right.
Qed.

(** Under a primary key, a select on the key of a stored row (and on
    anything else that row satisfies) finds that row and nothing
    else. *)
Lemma select_by_pk (key : A → string) (P : A → bool) (rows : list A) t :
  NoDup (key <$> rows) →
  t ∈ rows →
  P t = true →
  List.filter (λ r, bool_decide (key r = key t) && P r) rows = [t].
Proof.
  intros Hnd Hin HP. induction rows as [|r rows IH]; [by apply elem_of_nil in Hin|].
  rewrite fmap_cons in Hnd. apply NoDup_cons in Hnd as [Hr Hnd].
  apply elem_of_cons in Hin as [->|Hin]; simpl.
  - rewrite bool_decide_eq_true_2, HP by done. simpl. f_equal.
    apply filter_none. intros r' Hin'.
    rewrite bool_decide_eq_false_2; [done|]. intros Hk. apply Hr.
    rewrite <- Hk. by apply list_elem_of_fmap_2.
  - rewrite bool_decide_eq_false_2; [by apply IH|].
    intros Hk. apply Hr. rewrite Hk. by apply list_elem_of_fmap_2.
Qed.

Lemma existsb_none (f : A → bool) (rows : list A) :
  (∀ r, r ∈ rows → f r = false) → existsb f rows = false.
Proof.
  induction rows as [|r rows IH]; intros Hf; simpl; [done|].
  rewrite (Hf r) by left. apply IH. intros r' Hin. apply Hf. by right.
Qed.

(** Two stored rows with one key are one row. *)
Lemma pk_inj (key : A → string) (rows : list A) r t :
  NoDup (key <$> rows) → r ∈ rows → t ∈ rows → key r = key t → r = t.
Proof.
  intros Hnd Hr Ht Hk. induction rows as [|x rows IH]; [by apply elem_of_nil in Hr|].
  rewrite fmap_cons in Hnd. apply NoDup_cons in Hnd as [Hx Hnd].
  apply elem_of_cons in Hr as [->|Hr]; apply elem_of_cons in Ht as [->|Ht].
  - done.
  - destruct Hx. rewrite Hk. by apply list_elem_of_fmap_2.
  - destruct Hx. rewrite <- Hk. by apply list_elem_of_fmap_2.
  - by apply IH.
Qed.

(** Writing a stored row back over the rows of its key changes
    nothing. *)
Lemma store_same_row (key : A → string) (rows : list A) t :
  NoDup (key <$> rows) → t ∈ rows →
  (λ r, if bool_decide (key r = key t) then t else r) <$> rows = rows.
Proof.
  intros Hnd Ht. rewrite <- (list_fmap_id rows) at 2.
  apply list_fmap_ext. intros i r Hr. simpl.
  destruct (bool_decide (key r = key t)) eqn:Hk; [|done].
  apply bool_decide_eq_true_1 in Hk. symmetry.
  apply (pk_inj key rows); [done| |done|done].
  by apply list_elem_of_lookup_2 in Hr.
Qed.
End table_facts.

(** * Properties of the broker *)
Section broker_facts.
Import Sse.
Variable json_dumps : json → string.

Lemma dict_get_Some (d : gmap string (gset handle)) u s :
  d !! u = Some s → dict_get u d = s.
Proof. unfold dict_get. by intros ->. Qed.

Lemma dict_get_None (d : gmap string (gset handle)) u :
  d !! u = None → dict_get u d = ∅.
Proof. unfold dict_get. by intros ->. Qed.

Lemma queue_put_lookup ev q' (h : gmap handle (list event)) q :
  queue_put ev q' h !! q
  = if decide (q = q') then (λ l, l ++ [ev]) <$> h !! q else h !! q.
Proof.
  unfold queue_put. destruct (decide (q = q')) as [->|Hne].
  - by rewrite lookup_alter_eq.
  - by rewrite lookup_alter_ne.
Qed.

(** One [for queue in ...: queue.put(event)] loop over distinct
    queues: every queue of the loop gets the event once, at its tail,
    and no other queue changes. *)
Lemma put_loop_lookup ev (qs : list handle) (h : gmap handle (list event)) q :
  NoDup qs →
  foldl (λ h q, queue_put ev q h) h qs !! q
  = if decide (q ∈ qs) then (λ l, l ++ [ev]) <$> h !! q else h !! q.
Proof.
  revert h. induction qs as [|q' qs IH]; intros h Hnd; cbn [foldl].
  - rewrite decide_False; [done|]. apply not_elem_of_nil.
  - apply NoDup_cons in Hnd as [Hq' Hnd]. rewrite IH by done.
    rewrite queue_put_lookup.
    destruct (decide (q = q')) as [->|Hne].
    + rewrite (decide_False (P := q' ∈ qs)) by done.
      rewrite decide_True by left. done.
    + destruct (decide (q ∈ qs)) as [Hin|Hin].
      * rewrite decide_True by (by right). done.
      * rewrite decide_False; [done|]. by intros [?|?]%elem_of_cons.
Qed.

Lemma publish_subscribers u t d b :
  subscribers (publish json_dumps u t d b) = subscribers b.
Proof. done. Qed.

Lemma publish_queue u t d b q :
  queues (publish json_dumps u t d b) !! q
  = if decide (q ∈ dict_get u (subscribers b))
    then (λ l, l ++ [mk_event json_dumps t d]) <$> queues b !! q
    else queues b !! q.
Proof.
  unfold publish; simpl. rewrite put_loop_lookup by apply NoDup_elements.
  destruct (decide (q ∈ dict_get u (subscribers b))) as [Hin|Hin].
  - rewrite decide_True; [done|]. by apply elem_of_elements.
  - rewrite decide_False; [done|]. by rewrite elem_of_elements.
Qed.

Lemma publish_all_subscribers u evs b :
  subscribers (publish_all json_dumps u evs b) = subscribers b.
Proof.
  revert b. induction evs as [|e evs IH]; intros b; [done|].
  unfold publish_all in *. simpl. by rewrite IH.
Qed.

Lemma publish_all_queue u (evs : list (string * json)) b s q l :
  subscribers b !! u = Some s →
  q ∈ s →
  queues b !! q = Some l →
  queues (publish_all json_dumps u evs b) !! q
  = Some (l ++ ((λ e, mk_event json_dumps e.1 e.2) <$> evs)).
Proof.
  intros Hs Hq. revert b l Hs. induction evs as [|[t d] evs IH]; intros b l Hs Hl.
  - simpl. by rewrite app_nil_r.
  - unfold publish_all in *. simpl.
    rewrite (IH _ (l ++ [mk_event json_dumps t d])).
    + by rewrite <- app_assoc.
    + by rewrite publish_subscribers.
    + rewrite publish_queue, (dict_get_Some _ _ _ Hs), decide_True by done.
      by rewrite Hl.
Qed.

(** Reading a queue item by item returns its contents first in, first
    out. *)
Lemma queue_get_n_contents q (h : gmap handle (list event)) l :
  h !! q = Some l → queue_get_n (length l) q h = l.
Proof.
  revert h. induction l as [|ev l IH]; intros h Hl; simpl; [done|].
  unfold queue_get. rewrite Hl. f_equal. apply IH. apply lookup_insert_eq.
Qed.

(** C1. Every channel registered for a user receives each event that
    successive [publish] calls for that user carry, appended to its
    queue in the order of the calls, and its reader gets them out in
    that order; this holds for each channel of the user's set, so for
    two channels subscribed side by side as well. The registry is the
    same after the calls. *)
Theorem publish_all_delivers_in_order u (evs : list (string * json)) b s q l :
  subscribers b !! u = Some s →
  q ∈ s →
  queues b !! q = Some l →
  subscribers (publish_all json_dumps u evs b) = subscribers b
  ∧ queues (publish_all json_dumps u evs b) !! q
    = Some (l ++ ((λ e, mk_event json_dumps e.1 e.2) <$> evs))
  ∧ queue_get_n (length l + length evs) q (queues (publish_all json_dumps u evs b))
    = l ++ ((λ e, mk_event json_dumps e.1 e.2) <$> evs).
Proof.
  intros Hs Hq Hl.
  pose proof (publish_all_queue u evs b s q l Hs Hq Hl) as Hall.
  split; [apply publish_all_subscribers|]. split; [done|].
  rewrite <- (length_fmap (λ e, mk_event json_dumps e.1 e.2) evs), <- length_app.
  by apply queue_get_n_contents.
Qed.

(** C2. Publishing for a user without a registered channel leaves the
    whole broker as it was: no queue receives anything and the
    registry gets no entry for the user. [publish] has no failing
    path. *)
Theorem publish_without_subscribers_is_noop u t d b :
  subscribers b !! u = None ∨ subscribers b !! u = Some ∅ →
  publish json_dumps u t d b = b
  ∧ subscribers (publish json_dumps u t d b) !! u = subscribers b !! u.
Proof.
  intros Hu. split; [|done].
  assert (dict_get u (subscribers b) = ∅) as Hget.
  { destruct Hu as [Hu|Hu]; [by apply dict_get_None | by apply dict_get_Some]. }
  destruct b as [subs qs]. unfold publish; simpl in *.
  by rewrite Hget, elements_empty.
Qed.

Lemma dict_get_delete (d : gmap string (gset handle)) u :
  dict_get u (delete u d) = ∅.
Proof. apply dict_get_None, lookup_delete_eq. Qed.

Lemma dict_get_insert (d : gmap string (gset handle)) u s :
  dict_get u (<[u := s]> d) = s.
Proof. apply dict_get_Some, lookup_insert_eq. Qed.

Lemma discard_empty (q : handle) : (∅ : gset handle) ∖ {[q]} = ∅.
Proof. set_solver. Qed.

Lemma discard_discard (q : handle) (s : gset handle) :
  s ∖ {[q]} ∖ {[q]} = s ∖ {[q]}.
Proof. set_solver. Qed.

(** The registry after [unsubscribe], in one equation. *)
Lemma unsubscribe_subscribers u q b :
  subscribers (unsubscribe u q b)
  = if decide (dict_get u (subscribers b) ∖ {[q]} = ∅)
    then delete u (subscribers b)
    else <[u := dict_get u (subscribers b) ∖ {[q]}]> (subscribers b).
Proof.
  unfold unsubscribe, defaultdict_getitem, dict_get.
  destruct (subscribers b !! u) as [s|] eqn:Hu; simpl.
  - rewrite lookup_insert_eq.
    destruct (decide (s ∖ {[q]} = ∅)); simpl; [|done].
    by rewrite delete_insert_eq.
  - rewrite lookup_insert_eq.
    rewrite discard_empty, !decide_True by done. simpl.
    by rewrite insert_insert_eq, delete_insert_eq.
Qed.

Lemma unsubscribe_queues u q b : queues (unsubscribe u q b) = queues b.
Proof.
  unfold unsubscribe.
  destruct (defaultdict_getitem u (subscribers b)) as [s d].
  by destruct (defaultdict_getitem u (<[u:=s ∖ {[q]}]> d)).
Qed.

Lemma subscribe_subscribers u b :
  subscribers (subscribe u b).2
  = <[u := dict_get u (subscribers b) ∪ {[fresh (dom (queues b))]}]> (subscribers b).
Proof.
  unfold subscribe, defaultdict_getitem, dict_get.
  destruct (subscribers b !! u) as [s|] eqn:Hu; simpl; [done|].
  by rewrite insert_insert_eq.
Qed.

Lemma subscribe_queues u b :
  queues (subscribe u b).2 = <[fresh (dom (queues b)) := []]> (queues b).
Proof.
  unfold subscribe. by destruct (defaultdict_getitem u (subscribers b)).
Qed.

Lemma broker_eq b1 b2 :
  subscribers b1 = subscribers b2 → queues b1 = queues b2 → b1 = b2.
Proof. destruct b1, b2; simpl; congruence. Qed.

(** C3. A second [unsubscribe] of the same user and handle changes
    nothing: the broker is the one the first call left, in which the
    handle is no longer registered. [unsubscribe] has no failing path,
    whether or not the user has an entry. *)
Theorem unsubscribe_twice_is_noop u q b :
  unsubscribe u q (unsubscribe u q b) = unsubscribe u q b
  ∧ q ∉ dict_get u (subscribers (unsubscribe u q b)).
Proof.
  split.
  - apply broker_eq; [|by rewrite !unsubscribe_queues].
    rewrite (unsubscribe_subscribers u q (unsubscribe u q b)).
    rewrite (unsubscribe_subscribers u q b).
    destruct (decide (dict_get u (subscribers b) ∖ {[q]} = ∅)) as [He|He].
    + rewrite dict_get_delete, discard_empty, decide_True by done.
      by rewrite delete_delete_eq.
    + rewrite dict_get_insert, discard_discard, decide_False by done.
      by rewrite insert_insert_eq.
  - rewrite unsubscribe_subscribers.
    destruct (decide (dict_get u (subscribers b) ∖ {[q]} = ∅)) as [He|He].
    + rewrite dict_get_delete. set_solver.
    + rewrite dict_get_insert. set_solver.
Qed.

Lemma run_op_no_empty_entry o b :
  no_empty_entry b → no_empty_entry (run_op json_dumps b o).
Proof.
  intros Hb u' s'. destruct o as [u|u q|u t d]; simpl.
  - rewrite subscribe_subscribers.
    destruct (decide (u' = u)) as [->|Hne].
    + rewrite lookup_insert_eq. intros [= <-]. set_solver.
    + rewrite lookup_insert_ne by done. apply Hb.
  - rewrite unsubscribe_subscribers.
    destruct (decide (dict_get u (subscribers b) ∖ {[q]} = ∅)) as [He|He].
    + destruct (decide (u' = u)) as [->|Hne].
      * by rewrite lookup_delete_eq.
      * rewrite lookup_delete_ne by done. apply Hb.
    + destruct (decide (u' = u)) as [->|Hne].
      * rewrite lookup_insert_eq. by intros [= <-].
      * rewrite lookup_insert_ne by done. apply Hb.
  - apply Hb.
Qed.

Lemma run_no_empty_entry ops b :
  no_empty_entry b → no_empty_entry (run json_dumps ops b).
Proof.
  revert b. induction ops as [|o ops IH]; intros b Hb; [done|].
  apply IH. by apply run_op_no_empty_entry.
Qed.

(** C9. Starting from the empty broker, after any sequence of
    subscribe, unsubscribe and publish calls every user id that is a
    key of the registry has a non-empty set of channels; an
    unsubscribe that empties a user's set deletes the user's entry;
    publish leaves the registry as it is. *)
Theorem registry_entries_are_nonempty ops :
  (∀ u s, subscribers (run json_dumps ops empty_broker) !! u = Some s → s ≠ ∅)
  ∧ (∀ b u q, dict_get u (subscribers b) ∖ {[q]} = ∅ →
              subscribers (unsubscribe u q b) !! u = None)
  ∧ (∀ b u t d, subscribers (publish json_dumps u t d b) = subscribers b).
Proof.
  split; [|split].
  - apply run_no_empty_entry. intros u s. unfold empty_broker; simpl.
    by rewrite lookup_empty.
  - intros b u q He. rewrite unsubscribe_subscribers, decide_True by done.
    by rewrite lookup_delete_eq.
  - done.
Qed.

Lemma run_op_channels_allocated o b :
  channels_allocated b → channels_allocated (run_op json_dumps b o).
Proof.
  intros Hb u' s' q'. destruct o as [u|u q|u t d]; cbn [run_op].
  - rewrite subscribe_subscribers, subscribe_queues.
    intros Hs Hq. destruct (decide (q' = fresh (dom (queues b)))) as [->|Hq'].
    { rewrite lookup_insert_eq. by eexists. }
    rewrite lookup_insert_ne by done.
    destruct (decide (u' = u)) as [->|Hne].
    + rewrite lookup_insert_eq in Hs. injection Hs as <-.
      apply elem_of_union in Hq as [Hq|Hq]; [|set_solver].
      unfold dict_get in Hq.
      destruct (subscribers b !! u) as [s|] eqn:Hu; simpl in Hq; [|set_solver].
      by apply (Hb u s).
    + rewrite lookup_insert_ne in Hs by done. by apply (Hb u' s').
  - rewrite unsubscribe_subscribers, unsubscribe_queues.
    destruct (decide (dict_get u (subscribers b) ∖ {[q]} = ∅)) as [He|He].
    + intros Hs Hq. apply lookup_delete_Some in Hs as [_ Hs]. by apply (Hb u' s').
    + destruct (decide (u' = u)) as [->|Hne].
      * rewrite lookup_insert_eq. intros [= <-] Hq.
        apply elem_of_difference in Hq as [Hq _]. unfold dict_get in Hq.
        destruct (subscribers b !! u) as [s|] eqn:Hu; simpl in Hq; [|set_solver].
        by apply (Hb u s).
      * rewrite lookup_insert_ne by done. intros Hs Hq. by apply (Hb u' s').
  - rewrite publish_subscribers. intros Hs Hq.
    rewrite publish_queue. destruct (Hb u' s' q' Hs Hq) as [l ->].
    by destruct (decide _); eexists.
Qed.

(** Every channel the registry names is a live queue, in every broker
    that the calls can build. *)
Lemma run_channels_allocated ops b :
  channels_allocated b → channels_allocated (run json_dumps ops b).
Proof.
  revert b. induction ops as [|o ops IH]; intros b Hb; [done|].
  apply IH. by apply run_op_channels_allocated.
Qed.
End broker_facts.

(** Two tabs of one user, three events. *)
Lemma publish_all_delivers_in_order_witness :
  let dumps := λ _ : json, "{}" in
  let b := Sse.run dumps [Sse.Subscribe "alice"; Sse.Subscribe "alice"] Sse.empty_broker in
  let evs := [("notification", JNull); ("status_change", JNull); ("notification", JStr "x")] in
  (Sse.subscribers b !! "alice" = Some {[0%nat; 1%nat]}
   ∧ Sse.queues b !! 0%nat = Some [] ∧ Sse.queues b !! 1%nat = Some [])
  ∧ Sse.queues (Sse.publish_all dumps "alice" evs b) !! 0%nat
    = Some [Sse.Event "notification" "{}"; Sse.Event "status_change" "{}";
            Sse.Event "notification" "{}"]
  ∧ Sse.queue_get_n 3 1%nat (Sse.queues (Sse.publish_all dumps "alice" evs b))
    = [Sse.Event "notification" "{}"; Sse.Event "status_change" "{}";
       Sse.Event "notification" "{}"].
Proof.
  intros dumps b evs. split; [by vm_compute|]. split.
  - apply (publish_all_delivers_in_order dumps "alice" evs b {[0%nat; 1%nat]} 0%nat []).
    + by vm_compute.
    + set_solver.
    + reflexivity.
  - apply (publish_all_delivers_in_order dumps "alice" evs b {[0%nat; 1%nat]} 1%nat []).
    + by vm_compute.
    + set_solver.
    + reflexivity.
Defined.

Lemma publish_without_subscribers_is_noop_witness :
  let dumps := λ _ : json, "{}" in
  let b := Sse.run dumps [Sse.Subscribe "alice"] Sse.empty_broker in
  Sse.subscribers b !! "bob" = None
  ∧ Sse.publish dumps "bob" "notification" JNull b = b.
Proof.
  intros dumps b. split; [reflexivity|].
  apply (publish_without_subscribers_is_noop dumps "bob" "notification" JNull b).
  left. reflexivity.
Defined.

Lemma registry_entries_are_nonempty_witness :
  let dumps := λ _ : json, "{}" in
  let ops := [Sse.Subscribe "alice"; Sse.Subscribe "alice"; Sse.Unsubscribe "alice" 0%nat;
              Sse.Publish "bob" "notification" JNull; Sse.Subscribe "carol";
              Sse.Unsubscribe "carol" 2%nat] in
  let b := Sse.run dumps ops Sse.empty_broker in
  (Sse.subscribers b !! "alice" = Some {[1%nat]}
   ∧ Sse.dict_get "alice" (Sse.subscribers b) ∖ {[1%nat]} = ∅)
  ∧ ({[1%nat]} : gset Sse.handle) ≠ ∅
  ∧ Sse.subscribers (Sse.unsubscribe "alice" 1%nat b) !! "alice" = None.
Proof.
  intros dumps ops b.
  destruct (registry_entries_are_nonempty dumps ops) as (Hinv & Hdel & _).
  assert (Sse.subscribers b !! "alice" = Some {[1%nat]}) as Hs by (by vm_compute).
  assert (Sse.dict_get "alice" (Sse.subscribers b) ∖ {[1%nat]} = ∅) as He
    by (by vm_compute).
  split; [done|]. split.
  - exact (Hinv "alice" {[1%nat]} Hs).
  - exact (Hdel b "alice" 1%nat He).
Defined.

(** * Properties of the session codec *)
Section session_facts.
Import Auth.
Variable sign : string → payload → Z → string.

Lemma loads_authentic key p ts now :
  (0 ≤ now - ts ≤ SESSION_MAX_AGE)%Z →
  loads sign key (Signed p ts (sign key p ts)) SESSION_MAX_AGE now
  = match p with
    | Undecodable _ => Raise BadPayload
    | Object members => Ok (PyDict members)
    | NonObject text => Ok (PyOther text)
    end.
Proof.
  intros [Hlo Hhi]. unfold loads.
  rewrite bool_decide_eq_true_2 by done. simpl.
  destruct (Z.ltb_spec SESSION_MAX_AGE (now - ts)) as [?|_]; [lia|].
  destruct (Z.ltb_spec (now - ts) 0) as [?|_]; [lia|]. done.
Qed.

(** A token made by [create_session] validates to its user id while
    its age is within the seven days. *)
Lemma validate_session_create_session key uid issued now :
  (0 ≤ now - issued < SESSION_MAX_AGE)%Z →
  validate_session sign key (create_session sign key uid issued) now = Ok (Some uid).
Proof.
  intros Hage. unfold validate_session, create_session, dumps.
  by rewrite loads_authentic by lia.
Qed.

(** A string without the serializer's shape, or with a signature that
    is not the one the key gives, is rejected. *)
Lemma validate_session_bad_signature key t now :
  match t with
  | Unsigned _ => True
  | Signed p ts sig => sig ≠ sign key p ts
  end →
  validate_session sign key t now = Ok None.
Proof.
  destruct t as [s|p ts sig]; intros Hsig; unfold validate_session, loads; simpl.
  - done.
  - by rewrite bool_decide_eq_false_2.
Qed.

(** A token older than the seven days is rejected, whatever it
    carries. *)
Lemma validate_session_expired key p ts sig now :
  (SESSION_MAX_AGE < now - ts)%Z →
  validate_session sign key (Signed p ts sig) now = Ok None.
Proof.
  intros Hage. unfold validate_session, loads.
  destruct (bool_decide (sig = sign key p ts)); simpl; [|done].
  destruct (Z.ltb_spec SESSION_MAX_AGE (now - ts)) as [_|?]; [done|lia].
Qed.

(** An authentic token in its window whose object has no [uid] member
    is rejected: the [KeyError] is caught. *)
Lemma validate_session_missing_uid key members ts now :
  (0 ≤ now - ts ≤ SESSION_MAX_AGE)%Z →
  dict_lookup "uid" members = None →
  validate_session sign key
    (Signed (Object members) ts (sign key (Object members) ts)) now = Ok None.
Proof.
  intros Hage Hm. unfold validate_session.
  rewrite loads_authentic by done. simpl. by rewrite Hm.
Qed.

(** An authentic token in its window whose payload is a JSON value
    other than an object: [data["uid"]] raises [TypeError], which the
    [except] clause does not name. *)
Lemma validate_session_non_object key text ts now :
  (0 ≤ now - ts ≤ SESSION_MAX_AGE)%Z →
  validate_session sign key
    (Signed (NonObject text) ts (sign key (NonObject text) ts)) now
  = Raise TypeError.
Proof.
  intros Hage. unfold validate_session. by rewrite loads_authentic.
Qed.

(** An authentic token in its window whose payload does not decode:
    [BadPayload] is not a [BadSignature] and gets through as well. *)
Lemma validate_session_undecodable key raw ts now :
  (0 ≤ now - ts ≤ SESSION_MAX_AGE)%Z →
  validate_session sign key
    (Signed (Undecodable raw) ts (sign key (Undecodable raw) ts)) now
  = Raise BadPayload.
Proof.
  intros Hage. unfold validate_session. by rewrite loads_authentic.
Qed.

(** C6, at the failing input. The token carries the JSON array [[]],
    is signed with the server's key and is validated at the moment of
    its issuance: [validate_session] does not return "invalid", it
    raises [TypeError]. *)
Theorem validate_session_array_payload_raises key issued :
  validate_session sign key
    (Signed (NonObject "[]") issued (sign key (NonObject "[]") issued)) issued
  = Raise TypeError.
Proof.
  apply validate_session_non_object. unfold SESSION_MAX_AGE. lia.
Qed.
End session_facts.

(** * Properties of identity resolution *)
Section resolution_facts.
Import Auth.
Variable sign : string → payload → Z → string.
Variable hashpw : string → string → string.
Variable checkpw : string → string → bool.

Lemma session_valid_resolves request key now db c uid u :
  cookies request !! SESSION_COOKIE = Some c →
  validate_session sign key c now = Ok (Some uid) →
  uid ≠ "" →
  select_user uid db = [u] →
  get_current_user_from_session sign request key now db = (Ok (Some u), db).
Proof.
  intros Hc Hv Hne Hu. unfold get_current_user_from_session. rewrite Hc.
  destruct (token_is_empty c) eqn:He.
  { destruct c as [s|]; [|done]. simpl in He.
    apply bool_decide_eq_true_1 in He as ->. by rewrite validate_session_bad_signature in Hv. }
  unfold mbind, M_bind, lift_result. rewrite Hv.
  rewrite bool_decide_eq_false_2 by done. simpl. by rewrite Hu.
Qed.

Lemma session_absent_or_invalid request key now db :
  cookies request !! SESSION_COOKIE = None
  ∨ (∃ c, cookies request !! SESSION_COOKIE = Some c
          ∧ validate_session sign key c now = Ok None) →
  get_current_user_from_session sign request key now db = (Ok None, db).
Proof.
  unfold get_current_user_from_session. intros [->|(c & -> & Hv)]; [done|].
  destruct (token_is_empty c); [done|].
  unfold mbind, M_bind, lift_result. by rewrite Hv.
Qed.

(** A session that validates but names nobody: an empty uid, or a uid
    without a user row. *)
Lemma session_of_nobody request key now db c uid :
  cookies request !! SESSION_COOKIE = Some c →
  validate_session sign key c now = Ok (Some uid) →
  uid = "" ∨ select_user uid db = [] →
  get_current_user_from_session sign request key now db = (Ok None, db).
Proof.
  intros Hc Hv Hnobody. unfold get_current_user_from_session. rewrite Hc.
  destruct (token_is_empty c); [done|].
  unfold mbind, M_bind, lift_result, get. rewrite Hv.
  destruct (bool_decide (uid = "")) eqn:He; [done|].
  destruct Hnobody as [Hempty | Hnone]; [|by rewrite Hnone].
  subst uid. by rewrite bool_decide_eq_true_2 in He.
Qed.

Lemma get_current_user_falls_back request key now db :
  get_current_user_from_session sign request key now db = (Ok None, db) →
  get_current_user sign checkpw request key now db = token_outcome checkpw request now db.
Proof.
  intros Hs. unfold get_current_user, mbind, M_bind at 1. rewrite Hs.
  unfold token_outcome, M_bind.
  by destruct (get_current_user_from_token checkpw request now db) as [[[u|]|e] db'].
Qed.

(** C4, as amended. A request whose session cookie validates to the
    id of a stored user resolves to that user, whatever its
    Authorization header holds; the token table is not consulted. A
    request whose session cookie is absent, is rejected by
    [validate_session], or validates to an id that no user row has,
    gets what the bearer token gives: the token's user, or, when the
    token gives no user, the rejection 401 "Not authenticated". *)
Theorem get_current_user_session_before_token request key now db :
  (∀ c uid u,
     cookies request !! SESSION_COOKIE = Some c →
     validate_session sign key c now = Ok (Some uid) →
     uid ≠ "" →
     select_user uid db = [u] →
     get_current_user sign checkpw request key now db = (Ok u, db))
  ∧ (cookies request !! SESSION_COOKIE = None
     ∨ (∃ c, cookies request !! SESSION_COOKIE = Some c
             ∧ validate_session sign key c now = Ok None)
     ∨ (∃ c uid, cookies request !! SESSION_COOKIE = Some c
                 ∧ validate_session sign key c now = Ok (Some uid)
                 ∧ (uid = "" ∨ select_user uid db = [])) →
     get_current_user sign checkpw request key now db = token_outcome checkpw request now db
     ∧ (∀ u db', get_current_user_from_token checkpw request now db = (Ok (Some u), db') →
                 get_current_user sign checkpw request key now db = (Ok u, db'))
     ∧ (∀ db', get_current_user_from_token checkpw request now db = (Ok None, db') →
               get_current_user sign checkpw request key now db
               = (Raise (HTTPException 401 "Not authenticated"), db'))).
Proof.
  split.
  - intros c uid u Hc Hv Hne Hu. unfold get_current_user, mbind, M_bind.
    by rewrite (session_valid_resolves _ _ _ _ c uid u).
  - intros Hs.
    assert (get_current_user sign checkpw request key now db
            = token_outcome checkpw request now db) as Heq.
    { apply get_current_user_falls_back.
      destruct Hs as [Hs|[Hs|(c & uid & Hc & Hv & Hnobody)]].
      - apply session_absent_or_invalid. by left.
      - apply session_absent_or_invalid. by right.
      - by apply (session_of_nobody _ _ _ _ c uid). }
    split; [done|]. split.
    + intros u db' Ht. rewrite Heq. unfold token_outcome. by rewrite Ht.
    + intros db' Ht. rewrite Heq. unfold token_outcome. by rewrite Ht.
Qed.

(** *** The bearer path *)

Lemma substring_all s : String.substring 0 (String.length s) s = s.
Proof. induction s as [|a s IH]; simpl; [done|]. by rewrite IH. Qed.

Lemma bearer_prefix raw : String.prefix "Bearer " (String.append "Bearer " raw) = true.
Proof. simpl. by destruct raw. Qed.

Lemma bearer_raw raw : string_from 7 (String.append "Bearer " raw) = raw.
Proof. unfold string_from. simpl. rewrite Nat.sub_0_r. apply substring_all. Qed.

Lemma from_token_bearer request raw now db :
  headers request !! "Authorization" = Some (String.append "Bearer " raw) →
  get_current_user_from_token checkpw request now db
  = check_tokens checkpw raw now (client_tokens db) db.
Proof.
  intros Hh. unfold get_current_user_from_token. rewrite Hh.
  change (default "" (Some (String.append "Bearer " raw)))
    with (String.append "Bearer " raw).
  cbv zeta. by rewrite bearer_prefix, bearer_raw.
Qed.

Lemma bcrypt_checkpw_short raw hash :
  (String.length raw ≤ 72)%nat →
  bcrypt_checkpw checkpw raw hash = Ok (checkpw raw hash).
Proof.
  intros Hlen. unfold bcrypt_checkpw.
  destruct (Nat.ltb_spec 72 (String.length raw)) as [?|_]; [lia|done].
Qed.

Lemma bcrypt_checkpw_long raw hash :
  (72 < String.length raw)%nat →
  bcrypt_checkpw checkpw raw hash = Raise ValueError.
Proof.
  intros Hlen. unfold bcrypt_checkpw.
  destruct (Nat.ltb_spec 72 (String.length raw)) as [_|?]; [done|lia].
Qed.

(** One turn of the loop, for a token bcrypt accepts. *)
Lemma check_tokens_cons raw now ct rest db :
  (String.length raw ≤ 72)%nat →
  check_tokens checkpw raw now (ct :: rest) db
  = if checkpw raw (ClientToken.token_hash ct)
    then (scalar_one_or_none (select_user (ClientToken.user_id ct) db),
          touch_token ct now db)
    else check_tokens checkpw raw now rest db.
Proof.
  intros Hlen. cbn [check_tokens].
  unfold mbind, M_bind at 1, lift_result. rewrite bcrypt_checkpw_short by done.
  destruct (checkpw raw (ClientToken.token_hash ct)); [|done].
  unfold M_bind, modify, get.
  change (select_user (ClientToken.user_id ct) (touch_token ct now db))
    with (select_user (ClientToken.user_id ct) db).
  by destruct (scalar_one_or_none (select_user (ClientToken.user_id ct) db)).
Qed.

(** The loop for a token bcrypt refuses: the first row already raises. *)
Lemma check_tokens_long raw now ct rest db :
  (72 < String.length raw)%nat →
  check_tokens checkpw raw now (ct :: rest) db = (Raise ValueError, db).
Proof.
  intros Hlen. cbn [check_tokens].
  unfold mbind, M_bind, lift_result. by rewrite bcrypt_checkpw_long.
Qed.

Lemma check_tokens_no_match raw now tokens db :
  (String.length raw ≤ 72)%nat →
  (∀ ct, ct ∈ tokens → checkpw raw (ClientToken.token_hash ct) = false) →
  check_tokens checkpw raw now tokens db = (Ok None, db).
Proof.
  intros Hlen. induction tokens as [|ct tokens IH]; intros Hno; [done|].
  rewrite check_tokens_cons, (Hno ct) by (done || by left).
  apply IH. intros ct' Hin. apply Hno. by right.
Qed.

Lemma check_tokens_skip raw now skipped tokens db :
  (String.length raw ≤ 72)%nat →
  (∀ ct, ct ∈ skipped → checkpw raw (ClientToken.token_hash ct) = false) →
  check_tokens checkpw raw now (skipped ++ tokens) db
  = check_tokens checkpw raw now tokens db.
Proof.
  intros Hlen. induction skipped as [|ct skipped IH]; intros Hno; [done|].
  rewrite <- app_comm_cons, check_tokens_cons, (Hno ct) by (done || by left).
  apply IH. intros ct' Hin. apply Hno. by right.
Qed.

Lemma touch_token_hashes ct now db :
  ClientToken.token_hash <$> client_tokens (touch_token ct now db)
  = ClientToken.token_hash <$> client_tokens db.
Proof.
  unfold touch_token; simpl. rewrite <- list_fmap_compose.
  apply list_fmap_ext. intros i r _. simpl. by destruct (bool_decide _).
Qed.

Lemma check_tokens_hashes raw now tokens db :
  ClientToken.token_hash <$> client_tokens (check_tokens checkpw raw now tokens db).2
  = ClientToken.token_hash <$> client_tokens db.
Proof.
  destruct (Nat.ltb_spec 72 (String.length raw)) as [Hlong|Hshort].
  - destruct tokens as [|ct tokens]; [done|]. by rewrite check_tokens_long.
  - induction tokens as [|ct tokens IH]; [done|].
    rewrite check_tokens_cons by done.
    destruct (checkpw raw (ClientToken.token_hash ct)); [|done].
    apply (touch_token_hashes ct now db).
Qed.

Lemma from_token_hashes request now db :
  ClientToken.token_hash <$> client_tokens (get_current_user_from_token checkpw request now db).2
  = ClientToken.token_hash <$> client_tokens db.
Proof.
  unfold get_current_user_from_token.
  destruct (negb _); [done|]. unfold mbind, M_bind, get. apply check_tokens_hashes.
Qed.

Lemma authenticate_all_hashes requests db :
  ClientToken.token_hash <$> client_tokens (authenticate_all checkpw requests db)
  = ClientToken.token_hash <$> client_tokens db.
Proof.
  revert db. induction requests as [|r requests IH]; intros db; [done|].
  unfold authenticate_all in *. simpl. by rewrite IH, from_token_hashes.
Qed.

Lemma no_match_by_hashes raw (rows rows' : list ClientToken.t) :
  ClientToken.token_hash <$> rows' = ClientToken.token_hash <$> rows →
  (∀ ct, ct ∈ rows → checkpw raw (ClientToken.token_hash ct) = false) →
  ∀ ct, ct ∈ rows' → checkpw raw (ClientToken.token_hash ct) = false.
Proof.
  intros Heq Hno ct Hin.
  assert (ClientToken.token_hash ct ∈ ClientToken.token_hash <$> rows) as Hh.
  { rewrite <- Heq. by apply list_elem_of_fmap_2. }
  apply list_elem_of_fmap in Hh as (ct' & -> & Hin'). by apply Hno.
Qed.

Lemma select_user_id uid db u : u ∈ select_user uid db → User.id u = uid.
Proof.
  unfold select_user. rewrite list_elem_of_In, List.filter_In.
  intros [_ Hid]. by apply bool_decide_eq_true_1 in Hid.
Qed.

Lemma check_tokens_match raw now tokens db u db' :
  check_tokens checkpw raw now tokens db = (Ok (Some u), db') →
  ∃ ct, ct ∈ tokens ∧ checkpw raw (ClientToken.token_hash ct) = true
        ∧ User.id u = ClientToken.user_id ct.
Proof.
  destruct (Nat.ltb_spec 72 (String.length raw)) as [Hlong|Hshort].
  { destruct tokens as [|ct tokens]; [done|]. by rewrite check_tokens_long. }
  induction tokens as [|ct tokens IH]; [done|].
  rewrite check_tokens_cons by done.
  destruct (checkpw raw (ClientToken.token_hash ct)) eqn:Hm.
  - intros [= Hsel <-]. exists ct. split; [by left|]. split; [done|].
    apply (select_user_id _ db).
    unfold scalar_one_or_none in Hsel.
    destruct (select_user _ _) as [|r [|r' rows]]; [done| |done].
    injection Hsel as ->. by left.
  - intros Hrun. destruct (IH Hrun) as (ct' & Hin & Hrest).
    exists ct'. split; [by right|done].
Qed.

(** C5, at the failing input. The token table holds rows and the
    request presents a bearer token of 73 bytes, which no row
    verifies: [get_current_user_from_token] does not return
    "invalid", it raises the [ValueError] of bcrypt. *)
Theorem bearer_token_over_72_bytes_raises now :
  get_current_user_from_token checkpw
    (mkRequest ∅ (Fixtures.bearer Fixtures.LONG_TOKEN)) now Fixtures.test_db
  = (Raise ValueError, Fixtures.test_db).
Proof.
  rewrite (from_token_bearer _ Fixtures.LONG_TOKEN) by done.
  by apply check_tokens_long; vm_compute; lia.
Qed.

(** C7, at the failing input. A token was issued to [test_user]; a
    string of 73 bytes, which is not the plaintext of any stored
    token, is then presented: the verification does not return
    "invalid", it raises the [ValueError] of bcrypt. *)
Theorem verify_of_long_string_raises now now' :
  let db1 := (Tokens.create_token hashpw "My Phone" android Fixtures.test_user
                "fresh-token" "salt-3" "token-3" now Fixtures.test_db).2 in
  get_current_user_from_token checkpw
    (mkRequest ∅ (Fixtures.bearer Fixtures.LONG_TOKEN)) now' db1
  = (Raise ValueError, db1).
Proof.
  intros db1.
  rewrite (from_token_bearer _ Fixtures.LONG_TOKEN) by done.
  assert (∃ ct rest, client_tokens db1 = ct :: rest) as (ct & rest & ->).
  { unfold db1, Tokens.create_token, Tokens.insert_token, mbind, M_bind, get.
    destruct (existsb _ _); simpl; by eexists _, _. }
  by apply check_tokens_long; vm_compute; lia.
Qed.

(** X26. A bearer token of at most 72 bytes is checked against the
    stored token rows and nothing else: when no stored hash verifies
    it the result is "invalid" and the database is untouched, and a
    user comes back only through a stored row whose hash verifies it.
    Hence, once the one row that verified a plaintext is revoked, that
    plaintext is invalid, and stays invalid through any further
    bearer-authenticated requests. *)
Theorem revoked_token_stops_verifying request raw now db :
  headers request !! "Authorization" = Some (String.append "Bearer " raw) →
  (String.length raw ≤ 72)%nat →
  ((∀ ct, ct ∈ client_tokens db → checkpw raw (ClientToken.token_hash ct) = false) →
   get_current_user_from_token checkpw request now db = (Ok None, db))
  ∧ (∀ u db', get_current_user_from_token checkpw request now db = (Ok (Some u), db') →
              ∃ ct, ct ∈ client_tokens db
                    ∧ checkpw raw (ClientToken.token_hash ct) = true
                    ∧ User.id u = ClientToken.user_id ct)
  ∧ (∀ t user later,
       tokens_pk db →
       t ∈ client_tokens db →
       ClientToken.user_id t = User.id user →
       (∀ ct, ct ∈ client_tokens db →
              checkpw raw (ClientToken.token_hash ct) = true → ct = t) →
       Tokens.revoke_token (ClientToken.id t) user db = (Ok tt, Tokens.delete_token t db)
       ∧ (t ∉ client_tokens (Tokens.delete_token t db))
       ∧ get_current_user_from_token checkpw request now
           (authenticate_all checkpw later (Tokens.delete_token t db))
         = (Ok None, authenticate_all checkpw later (Tokens.delete_token t db))).
Proof.
  intros Hh Hlen. split; [|split].
  - intros Hno. rewrite (from_token_bearer _ raw) by done.
    by apply check_tokens_no_match.
  - intros u db'. rewrite (from_token_bearer _ raw) by done.
    apply check_tokens_match.
  - intros t user later Hpk Hin Howner Honly.
    assert (∀ ct, ct ∈ client_tokens (Tokens.delete_token t db) →
                  ct ∈ client_tokens db ∧ ClientToken.id ct ≠ ClientToken.id t) as Hleft.
    { intros ct. unfold Tokens.delete_token; simpl.
      rewrite list_elem_of_In, List.filter_In, <- list_elem_of_In.
      intros [Hct Hid]. split; [done|].
      apply negb_true_iff in Hid. by apply bool_decide_eq_false_1 in Hid. }
    split; [|split].
    + unfold Tokens.revoke_token, mbind, M_bind, get, lift_result.
      rewrite (select_by_pk ClientToken.id
                 (λ r, bool_decide (ClientToken.user_id r = User.id user))
                 (client_tokens db) t Hpk Hin)
        by (by apply bool_decide_eq_true_2).
      done.
    + intros Ht. by destruct (Hleft t Ht).
    + rewrite (from_token_bearer _ raw) by done.
      apply check_tokens_no_match; [done|].
      apply (no_match_by_hashes raw (client_tokens (Tokens.delete_token t db)));
        [apply authenticate_all_hashes|].
      intros ct Hct. destruct (Hleft ct Hct) as [Hdb Hid].
      destruct (checkpw raw (ClientToken.token_hash ct)) eqn:Hm; [|done].
      destruct Hid. by rewrite (Honly ct Hdb Hm).
Qed.

(** *** Issuing a token and presenting it *)
Section bcrypt.
(** What is taken from bcrypt: a password of at most 72 bytes
    verifies against its own hash. *)
Hypothesis checkpw_hashpw : ∀ password salt,
  (String.length password ≤ 72)%nat →
  checkpw password (hashpw password salt) = true.

(** X27. A token created for a user and presented straight away as a
    bearer token resolves to that user and stamps the new row, when
    the plaintext has at most 72 bytes (the drawn ones have 43), no
    stored hash verifies it yet, the drawn id is unused and the user
    has a row. *)
Theorem issued_token_verifies name device_type user plaintext salt new_id now now' request db :
  (String.length plaintext ≤ 72)%nat →
  select_user (User.id user) db = [user] →
  (∀ ct, ct ∈ client_tokens db → ClientToken.id ct ≠ new_id) →
  (∀ ct, ct ∈ client_tokens db →
         checkpw plaintext (ClientToken.token_hash ct) = false) →
  headers request !! "Authorization" = Some (String.append "Bearer " plaintext) →
  ∃ token db1,
    Tokens.create_token hashpw name device_type user plaintext salt new_id now db
    = (Ok (token, plaintext), db1)
    ∧ client_tokens db1 = client_tokens db ++ [token]
    ∧ get_current_user_from_token checkpw request now' db1
      = (Ok (Some user), touch_token token now' db1).
Proof.
  intros Hlen Huser Hid Hfresh Hh.
  set (token := ClientToken.mk new_id (User.id user)
                  (Auth.hash_token hashpw plaintext salt) name device_type
                  None now None).
  exists token, (set_client_tokens (client_tokens db ++ [token]) db).
  split; [|split].
  - unfold Tokens.create_token, Tokens.insert_token, mbind, M_bind, get.
    fold token. rewrite existsb_none; [done|].
    intros r Hr. apply orb_false_iff. split.
    + apply bool_decide_eq_false_2. by apply Hid.
    + apply bool_decide_eq_false_2. intros Heq.
      specialize (Hfresh r Hr). rewrite Heq in Hfresh. simpl in Hfresh.
      unfold hash_token in Hfresh. by rewrite checkpw_hashpw in Hfresh.
  - done.
  - rewrite (from_token_bearer _ plaintext) by done. cbn [client_tokens set_client_tokens].
    rewrite check_tokens_skip, check_tokens_cons by done.
    cbn [ClientToken.token_hash ClientToken.user_id token].
    unfold hash_token. rewrite checkpw_hashpw by done.
    change (select_user (User.id user) (set_client_tokens _ db))
      with (select_user (User.id user) db).
    by rewrite Huser.
Qed.
End bcrypt.
End resolution_facts.


(** * Properties of the status update *)
Section notification_facts.
Import Notifications.
Variable json_dumps : json → string.

Lemma set_notifications_same d : set_notifications (notifications d) d = d.
Proof. by destruct d. Qed.

Lemma apply_update_id payload now n :
  Notification.id (apply_update payload now n) = Notification.id n.
Proof.
  unfold apply_update. destruct (u_status payload) as [st|]; [|done].
  by destruct (_ && _).
Qed.

Lemma apply_update_user_id payload now n :
  Notification.user_id (apply_update payload now n) = Notification.user_id n.
Proof.
  unfold apply_update. destruct (u_status payload) as [st|]; [|done].
  by destruct (_ && _).
Qed.

Lemma apply_update_status payload now n :
  Notification.status (apply_update payload now n)
  = default (Notification.status n) (u_status payload).
Proof.
  unfold apply_update. destruct (u_status payload) as [st|]; [|done].
  by destruct (_ && _).
Qed.

(** One status update: [read_at] is written only when the update asks
    for [read] and [read_at] is still null. *)
Lemma apply_update_read_at payload now n :
  Notification.read_at (apply_update payload now n)
  = match Notification.read_at n with
    | Some t => Some t
    | None => if bool_decide (u_status payload = Some read) then Some now else None
    end.
Proof.
  unfold apply_update. destruct (u_status payload) as [st|]; simpl.
  - destruct (Notification.read_at n) as [t|] eqn:Hr; simpl.
    + rewrite andb_false_r. done.
    + rewrite andb_true_r. destruct st; simpl; by rewrite ?Hr.
  - by destruct (Notification.read_at n).
Qed.

Lemma apply_updates_read_at ps n :
  Notification.read_at (apply_updates ps n)
  = match Notification.read_at n with
    | Some t => Some t
    | None => first_read ps
    end.
Proof.
  revert n. induction ps as [|[p t] ps IH]; intros n.
  - simpl. by destruct (Notification.read_at n).
  - unfold apply_updates in *. simpl. rewrite IH, apply_update_read_at. simpl.
    destruct (Notification.read_at n); [done|].
    by destruct (bool_decide (u_status p = Some read)).
Qed.

(** [update_notification] on a stored notification of the caller. *)
Lemma update_notification_owned nid payload user now a n :
  notifications_pk (db a) →
  n ∈ notifications (db a) →
  Notification.id n = nid →
  Notification.user_id n = User.id user →
  update_notification json_dumps nid payload user now a
  = (Ok (apply_update payload now n),
     App (store_notification (apply_update payload now n) (db a))
         (Sse.publish json_dumps (User.id user) "status_change"
            (status_change_data (apply_update payload now n)) (broker a))).
Proof.
  intros Hpk Hin <- Hu.
  unfold update_notification, mbind, M_bind, get, lift_result, select_owned.
  rewrite (select_by_pk Notification.id
             (λ r, bool_decide (Notification.user_id r = User.id user))
             (notifications (db a)) n Hpk Hin)
    by (by apply bool_decide_eq_true_2).
  done.
Qed.

Lemma store_notification_ids n d :
  Notification.id <$> notifications (store_notification n d)
  = Notification.id <$> notifications d.
Proof.
  unfold store_notification; simpl. rewrite <- list_fmap_compose.
  apply list_fmap_ext. intros i r _. simpl.
  destruct (bool_decide (Notification.id r = Notification.id n)) eqn:Hk; [|done].
  by apply bool_decide_eq_true_1 in Hk.
Qed.

Lemma store_notification_elem n n' d :
  n ∈ notifications d → Notification.id n' = Notification.id n →
  n' ∈ notifications (store_notification n' d).
Proof.
  intros Hin Hid. unfold store_notification; simpl.
  apply list_elem_of_fmap. exists n. split; [|done].
  by rewrite bool_decide_eq_true_2.
Qed.
(** C8. [read_at] is written once: over any run of status updates
    it ends as the time of the first update that asks for [read], or
    as it was when it was already set. Through the handler, the first
    PATCH with status [read] answers with status [read] and [read_at]
    set to the time of that request, and a second such PATCH answers
    with the same [read_at]. *)
Theorem read_at_set_once :
  (∀ ps n, Notification.read_at (apply_updates ps n)
           = match Notification.read_at n with
             | Some t => Some t
             | None => first_read ps
             end)
  ∧ (∀ nid user now now2 a n,
       notifications_pk (db a) →
       n ∈ notifications (db a) →
       Notification.id n = nid →
       Notification.user_id n = User.id user →
       Notification.read_at n = None →
       ∃ r1 a1 r2 a2,
         update_notification json_dumps nid (mkUpdate (Some read)) user now a = (Ok r1, a1)
         ∧ Notification.status r1 = read
         ∧ Notification.read_at r1 = Some now
         ∧ update_notification json_dumps nid (mkUpdate (Some read)) user now2 a1 = (Ok r2, a2)
         ∧ Notification.status r2 = read
         ∧ Notification.read_at r2 = Some now).
Proof.
  split; [apply apply_updates_read_at|].
  intros nid user now now2 a n Hpk Hin Hid Hu Hr.
  set (p := mkUpdate (Some read)).
  set (r1 := apply_update p now n).
  set (a1 := App (store_notification r1 (db a))
                 (Sse.publish json_dumps (User.id user) "status_change"
                    (status_change_data r1) (broker a))).
  set (r2 := apply_update p now2 r1).
  exists r1, a1, r2,
    (App (store_notification r2 (db a1))
         (Sse.publish json_dumps (User.id user) "status_change"
            (status_change_data r2) (broker a1))).
  assert (Notification.read_at r1 = Some now) as Hr1.
  { unfold r1. by rewrite apply_update_read_at, Hr. }
  split; [by apply update_notification_owned|].
  split; [by unfold r1; rewrite apply_update_status|].
  split; [done|].
  split.
  - apply update_notification_owned.
    + unfold notifications_pk, a1; cbn [db]. by rewrite store_notification_ids.
    + unfold a1; cbn [db]. apply (store_notification_elem n); [done|].
      apply apply_update_id.
    + unfold r1. by rewrite apply_update_id.
    + unfold r1. by rewrite apply_update_user_id.
  - split; [by unfold r2; rewrite apply_update_status|].
    unfold r2. by rewrite apply_update_read_at, Hr1.
Qed.

(** C10. A PATCH without a status on a notification of the caller
    leaves the database as it was, answers with the stored
    notification, and publishes one [status_change] event with the
    notification's id and its unchanged status: every channel of the
    owner gets that event at the tail of its queue. *)
Theorem update_without_status_republishes nid payload user now a n :
  notifications_pk (db a) →
  n ∈ notifications (db a) →
  Notification.id n = nid →
  Notification.user_id n = User.id user →
  u_status payload = None →
  ∃ a',
    update_notification json_dumps nid payload user now a = (Ok n, a')
    ∧ db a' = db a
    ∧ broker a' = Sse.publish json_dumps (User.id user) "status_change"
                    (JObj [("id", JStr (Notification.id n));
                           ("status", JStr (Status_value (Notification.status n)))])
                    (broker a)
    ∧ (∀ s q l,
         Sse.subscribers (broker a) !! User.id user = Some s →
         q ∈ s →
         Sse.queues (broker a) !! q = Some l →
         Sse.queues (broker a') !! q
         = Some (l ++ [Sse.mk_event json_dumps "status_change" (status_change_data n)])).
Proof.
  intros Hpk Hin Hid Hu Hnone.
  assert (apply_update payload now n = n) as Hsame.
  { unfold apply_update. by rewrite Hnone. }
  exists (App (db a) (Sse.publish json_dumps (User.id user) "status_change"
                        (status_change_data n) (broker a))).
  split.
  { rewrite (update_notification_owned nid payload user now a n) by done.
    rewrite Hsame. unfold store_notification.
    rewrite (store_same_row Notification.id) by done.
    by rewrite set_notifications_same. }
  cbn [db broker]. split; [done|]. split; [done|].
  intros s q l Hs Hq Hl.
  rewrite publish_queue, (dict_get_Some _ _ _ Hs), decide_True by done.
  by rewrite Hl.
Qed.
End notification_facts.

(** * The properties on the fixtures *)

(** The session of [test_user] wins over the token of [other_user];
    without the cookie the token decides; with neither, 401. *)
Lemma get_current_user_session_before_token_witness :
  Auth.get_current_user Fixtures.sign Fixtures.checkpw
    (Auth.mkRequest Fixtures.with_session (Fixtures.bearer "other-token"))
    Fixtures.SECRET_KEY 60 Fixtures.test_db
  = (Ok Fixtures.test_user, Fixtures.test_db)
  ∧ Auth.get_current_user Fixtures.sign Fixtures.checkpw
      (Auth.mkRequest ∅ (Fixtures.bearer "other-token"))
      Fixtures.SECRET_KEY 60 Fixtures.test_db
    = (Ok Fixtures.other_user, Auth.touch_token Fixtures.other_token 60 Fixtures.test_db)
  ∧ Auth.get_current_user Fixtures.sign Fixtures.checkpw
      (Auth.mkRequest ∅ (Fixtures.bearer "no-such-token"))
      Fixtures.SECRET_KEY 60 Fixtures.test_db
    = (Raise (HTTPException 401 "Not authenticated"), Fixtures.test_db).
Proof.
  split; [|split].
  - apply (proj1 (get_current_user_session_before_token Fixtures.sign Fixtures.checkpw
                    (Auth.mkRequest Fixtures.with_session (Fixtures.bearer "other-token"))
                    Fixtures.SECRET_KEY 60 Fixtures.test_db)
             Fixtures.session_cookie "user-123" Fixtures.test_user).
    + reflexivity.
    + reflexivity.
    + discriminate.
    + reflexivity.
  - apply (proj2 (get_current_user_session_before_token Fixtures.sign Fixtures.checkpw
                    (Auth.mkRequest ∅ (Fixtures.bearer "other-token"))
                    Fixtures.SECRET_KEY 60 Fixtures.test_db)).
    + left. reflexivity.
    + reflexivity.
  - apply (proj2 (get_current_user_session_before_token Fixtures.sign Fixtures.checkpw
                    (Auth.mkRequest ∅ (Fixtures.bearer "no-such-token"))
                    Fixtures.SECRET_KEY 60 Fixtures.test_db)).
    + left. reflexivity.
    + reflexivity.
Defined.

(** C4 as written fails here. A session that validates, for a user
    id without a row, together with the bearer token of [other_user]:
    the request is resolved to the user of the token. *)
Lemma session_of_missing_user_yields_token_user :
  Auth.validate_session Fixtures.sign Fixtures.SECRET_KEY
    (Auth.create_session Fixtures.sign Fixtures.SECRET_KEY "user-999" 0) 60
  = Ok (Some "user-999")
  ∧ Auth.get_current_user Fixtures.sign Fixtures.checkpw
      (Auth.mkRequest
         {[ "session" := Auth.create_session Fixtures.sign Fixtures.SECRET_KEY "user-999" 0 ]}
         (Fixtures.bearer "other-token"))
      Fixtures.SECRET_KEY 60 Fixtures.test_db
    = (Ok Fixtures.other_user, Auth.touch_token Fixtures.other_token 60 Fixtures.test_db).
Proof. split; reflexivity. Qed.

(** Revoking [test_token]: its plaintext no longer authenticates, also
    after a request with the other token. *)
Lemma revoked_token_stops_verifying_witness :
  let request := Auth.mkRequest ∅ (Fixtures.bearer Fixtures.TEST_TOKEN_PLAINTEXT) in
  let later := [(Auth.mkRequest ∅ (Fixtures.bearer "other-token"), 90%Z)] in
  let db' := Tokens.delete_token Fixtures.test_token Fixtures.test_db in
  Tokens.revoke_token "token-1" Fixtures.test_user Fixtures.test_db = (Ok tt, db')
  ∧ Auth.get_current_user_from_token Fixtures.checkpw request 120
      (Auth.authenticate_all Fixtures.checkpw later db')
    = (Ok None, Auth.authenticate_all Fixtures.checkpw later db').
Proof.
  intros request later db'.
  destruct (revoked_token_stops_verifying Fixtures.checkpw request
              Fixtures.TEST_TOKEN_PLAINTEXT 120 Fixtures.test_db) as (_ & _ & Hrevoke).
  { reflexivity. }
  { vm_compute. lia. }
  destruct (Hrevoke Fixtures.test_token Fixtures.test_user later) as (H1 & _ & H2).
  - unfold tokens_pk. simpl. apply NoDup_cons. split; [|apply NoDup_singleton].
    intros Hin%list_elem_of_singleton. discriminate.
  - simpl. right. left.
  - reflexivity.
  - simpl. intros ct [->|Hin%list_elem_of_singleton]%elem_of_cons Hm.
    + vm_compute in Hm. discriminate.
    + done.
  - split; [exact H1 | exact H2].
Defined.

(** A token issued to [test_user] authenticates [test_user]. *)
Lemma issued_token_verifies_witness :
  let request := Auth.mkRequest ∅ (Fixtures.bearer "fresh-token") in
  ∃ token db1,
    Tokens.create_token Fixtures.hashpw "My Phone" android Fixtures.test_user
      "fresh-token" "salt-3" "token-3" 30 Fixtures.test_db
    = (Ok (token, "fresh-token"), db1)
    ∧ client_tokens db1 = client_tokens Fixtures.test_db ++ [token]
    ∧ Auth.get_current_user_from_token Fixtures.checkpw request 60 db1
      = (Ok (Some Fixtures.test_user), Auth.touch_token token 60 db1).
Proof.
  intros request.
  apply (issued_token_verifies Fixtures.hashpw Fixtures.checkpw
           (λ password salt _, bool_decide_eq_true_2 _ eq_refl)
           "My Phone" android Fixtures.test_user "fresh-token" "salt-3" "token-3"
           30%Z 60%Z request Fixtures.test_db).
  - vm_compute. lia.
  - reflexivity.
  - simpl. intros ct [->|Hin%list_elem_of_singleton]%elem_of_cons; [|subst ct]; discriminate.
  - simpl. intros ct [->|Hin%list_elem_of_singleton]%elem_of_cons; [|subst ct]; reflexivity.
  - reflexivity.
Defined.

(** The scenario of the test suite: the first PATCH to [read] at time
    100 sets [read_at], the second at time 200 leaves it. *)
Lemma read_at_set_once_witness :
  ∃ r1 a1 r2 a2,
    Notifications.update_notification Fixtures.json_dumps "n-1"
      (Notifications.mkUpdate (Some read)) Fixtures.test_user 100 Fixtures.test_app
    = (Ok r1, a1)
    ∧ Notification.status r1 = read
    ∧ Notification.read_at r1 = Some 100%Z
    ∧ Notifications.update_notification Fixtures.json_dumps "n-1"
        (Notifications.mkUpdate (Some read)) Fixtures.test_user 200 a1
      = (Ok r2, a2)
    ∧ Notification.status r2 = read
    ∧ Notification.read_at r2 = Some 100%Z.
Proof.
  apply (proj2 (read_at_set_once Fixtures.json_dumps) "n-1" Fixtures.test_user 100%Z 200%Z
           Fixtures.test_app Fixtures.test_notification).
  - unfold notifications_pk. simpl. apply NoDup_singleton.
  - simpl. left.
  - reflexivity.
  - reflexivity.
  - reflexivity.
Defined.

(** A PATCH with an empty body on the unread notification: the open
    stream of [test_user] gets a [status_change] event. *)
Lemma update_without_status_republishes_witness :
  ∃ a',
    Notifications.update_notification Fixtures.json_dumps "n-1"
      (Notifications.mkUpdate None) Fixtures.test_user 100 Fixtures.test_app
    = (Ok Fixtures.test_notification, a')
    ∧ Notifications.db a' = Fixtures.test_db
    ∧ Sse.queues (Notifications.broker a') !! 0%nat
      = Some [Sse.Event "status_change" "{}"].
Proof.
  destruct (update_without_status_republishes Fixtures.json_dumps "n-1"
              (Notifications.mkUpdate None) Fixtures.test_user 100 Fixtures.test_app
              Fixtures.test_notification) as (a' & Hrun & Hdb & _ & Hq).
  - unfold notifications_pk. simpl. apply NoDup_singleton.
  - simpl. left.
  - reflexivity.
  - reflexivity.
  - reflexivity.
  - exists a'. split; [exact Hrun|]. split; [exact Hdb|].
    apply (Hq {[0%nat]} 0%nat []); [by vm_compute | set_solver | reflexivity].
Defined.


(** * Further properties of the broker *)
Section broker_more.
Import Sse.
Variable json_dumps : json → string.

Lemma fresh_queue_unallocated b : queues b !! fresh (dom (queues b)) = None.
Proof. apply not_elem_of_dom. apply is_fresh. Qed.

(** X1. [subscribe] hands out a queue that did not exist before, empty,
    and adds it to the caller's set; no other entry of the registry and
    no other queue changes. *)
Theorem subscribe_registers_fresh_queue u b :
  queues b !! (subscribe u b).1 = None
  ∧ subscribers (subscribe u b).2
    = <[u := dict_get u (subscribers b) ∪ {[(subscribe u b).1]}]> (subscribers b)
  ∧ queues (subscribe u b).2 = <[(subscribe u b).1 := []]> (queues b).
Proof.
  assert ((subscribe u b).1 = fresh (dom (queues b))) as ->.
  { unfold subscribe. by destruct (defaultdict_getitem u (subscribers b)). }
  split; [apply fresh_queue_unallocated|].
  split; [apply subscribe_subscribers | apply subscribe_queues].
Qed.

Lemma run_snoc ops o b :
  run json_dumps (ops ++ [o]) b = run_op json_dumps (run json_dumps ops b) o.
Proof. unfold run. by rewrite foldl_app. Qed.

Lemma reachable_no_empty_entry ops : no_empty_entry (run json_dumps ops empty_broker).
Proof.
  apply run_no_empty_entry. intros u s. unfold empty_broker; simpl.
  by rewrite lookup_empty.
Qed.

Lemma reachable_channels_allocated ops :
  channels_allocated (run json_dumps ops empty_broker).
Proof.
  apply run_channels_allocated. intros u s q. unfold empty_broker; simpl.
  by rewrite lookup_empty.
Qed.

(** X2. In a broker built by any calls from the empty one, opening a
    stream and closing it again leaves the registry exactly as it
    was. *)
Theorem subscribe_then_unsubscribe_restores_registry ops u :
  subscribers (unsubscribe u (subscribe u (run json_dumps ops empty_broker)).1
                 (subscribe u (run json_dumps ops empty_broker)).2)
  = subscribers (run json_dumps ops empty_broker).
Proof.
  set (b := run json_dumps ops empty_broker).
  pose proof (reachable_no_empty_entry ops) as Hne.
  pose proof (reachable_channels_allocated ops) as Hal. fold b in Hne, Hal.
  destruct (subscribe_registers_fresh_queue u b) as (Hfresh & Hsubs & _).
  set (q := (subscribe u b).1) in *.
  rewrite unsubscribe_subscribers, Hsubs, dict_get_insert.
  assert (q ∉ dict_get u (subscribers b)) as Hq.
  { unfold dict_get. destruct (subscribers b !! u) as [s|] eqn:Hu; simpl; [|set_solver].
    intros Hin. destruct (Hal u s q Hu Hin) as [l Hl]. congruence. }
  assert ((dict_get u (subscribers b) ∪ {[q]}) ∖ {[q]} = dict_get u (subscribers b)) as ->
    by set_solver.
  unfold dict_get. destruct (subscribers b !! u) as [s|] eqn:Hu; simpl.
  - rewrite decide_False by (by apply (Hne u)).
    rewrite insert_insert_eq. by apply insert_id.
  - rewrite decide_True by done. rewrite delete_insert_eq. by apply delete_id.
Qed.

Lemma unsubscribe_not_registered u q b :
  q ∉ dict_get u (subscribers (unsubscribe u q b)).
Proof.
  rewrite unsubscribe_subscribers.
  destruct (decide (dict_get u (subscribers b) ∖ {[q]} = ∅)) as [He|He].
  - rewrite dict_get_delete. set_solver.
  - rewrite dict_get_insert. set_solver.
Qed.

(** X3. Closing a stream ends its deliveries: a [publish] for the user
    after [unsubscribe] leaves that queue as it was. *)
Theorem no_delivery_after_unsubscribe u q t d b :
  queues (publish json_dumps u t d (unsubscribe u q b)) !! q = queues b !! q.
Proof.
  rewrite publish_queue, unsubscribe_queues.
  rewrite decide_False; [done|].
  apply unsubscribe_not_registered.
Qed.
Lemma dict_get_elem (d : gmap string (gset handle)) u q :
  q ∈ dict_get u d ↔ ∃ s, d !! u = Some s ∧ q ∈ s.
Proof.
  unfold dict_get. destruct (d !! u) as [s|]; simpl.
  - split; [by exists s | by intros (s' & [= <-] & ?)].
  - split; [set_solver | by intros (s' & ? & ?)].
Qed.

Lemma run_op_channels_disjoint o b :
  channels_allocated b → channels_disjoint b →
  channels_disjoint (run_op json_dumps b o).
Proof.
  intros Hal Hd. destruct o as [u0|u0 q0|u0 t d]; cbn [run_op]; [| |exact Hd].
  - destruct (subscribe_registers_fresh_queue u0 b) as (Hfresh & Hsubs & _).
    set (q0 := (subscribe u0 b).1) in *.
    assert (∀ v s q, subscribers b !! v = Some s → q ∈ s → q ≠ q0) as Hold.
    { intros v s q Hv Hq ->. destruct (Hal v s q0 Hv Hq) as [l Hl]. congruence. }
    intros u v s s' q Huv. rewrite Hsubs.
    destruct (decide (u = u0)) as [->|Hu]; destruct (decide (v = u0)) as [->|Hv];
      rewrite ?lookup_insert_eq, ?lookup_insert_ne by done; [done| | |by apply Hd].
    + intros [= <-] Hs' [Hq|Hq]%elem_of_union Hin.
      * apply dict_get_elem in Hq as (s0 & Hs0 & Hq). by apply (Hd u0 v s0 s' q).
      * apply elem_of_singleton in Hq as ->. by apply (Hold v s' q0).
    + intros Hs [= <-] Hq [Hin|Hin]%elem_of_union.
      * apply dict_get_elem in Hin as (s0 & Hs0 & Hin). by apply (Hd u u0 s s0 q).
      * apply elem_of_singleton in Hin as ->. by apply (Hold u s q0).
  - assert (∀ v s', subscribers (unsubscribe u0 q0 b) !! v = Some s' →
                    ∃ s, subscribers b !! v = Some s ∧ s' ⊆ s) as Hshrink.
    { intros v s'. rewrite unsubscribe_subscribers.
      destruct (decide (dict_get u0 (subscribers b) ∖ {[q0]} = ∅)) as [He|He].
      - intros [_ Hv]%lookup_delete_Some. by exists s'.
      - destruct (decide (v = u0)) as [->|Hv].
        + rewrite lookup_insert_eq. intros [= <-].
          unfold dict_get in *. destruct (subscribers b !! u0) as [s|]; simpl in *.
          * exists s. split; [done|set_solver].
          * destruct He. set_solver.
        + rewrite lookup_insert_ne by done. intros Hs. by exists s'. }
    intros u v s s' q Huv Hs Hs' Hq Hin.
    destruct (Hshrink u s Hs) as (s1 & Hs1 & Hsub),
             (Hshrink v s' Hs') as (s1' & Hs1' & Hsub').
    apply (Hd u v s1 s1' q); set_solver.
Qed.

Lemma reachable_channels_disjoint ops :
  channels_disjoint (run json_dumps ops empty_broker).
Proof.
  induction ops as [|o ops IH] using rev_ind.
  - intros u v s s' q _. unfold run, empty_broker; simpl. by rewrite lookup_empty.
  - rewrite run_snoc. apply run_op_channels_disjoint; [|done].
    apply reachable_channels_allocated.
Qed.

(** X4. In a broker built by any calls from the empty one, a channel
    belongs to one user only, so an event published for one user
    reaches no channel of another user. *)
Theorem publish_reaches_no_other_user ops u v t d q :
  u ≠ v →
  q ∈ dict_get v (subscribers (run json_dumps ops empty_broker)) →
  (q ∉ dict_get u (subscribers (run json_dumps ops empty_broker)))
  ∧ queues (publish json_dumps u t d (run json_dumps ops empty_broker)) !! q
    = queues (run json_dumps ops empty_broker) !! q.
Proof.
  intros Huv Hq. set (b := run json_dumps ops empty_broker) in *.
  assert (q ∉ dict_get u (subscribers b)) as Hnot.
  { intros Hin. apply dict_get_elem in Hq as (s' & Hs' & Hq).
    apply dict_get_elem in Hin as (s & Hs & Hin).
    by apply (reachable_channels_disjoint ops u v s s' q). }
  split; [done|]. by rewrite publish_queue, decide_False.
Qed.

Lemma run_op_queue_grows o b q l :
  queues b !! q = Some l →
  ∃ l', queues (run_op json_dumps b o) !! q = Some (l ++ l').
Proof.
  intros Hl. destruct o as [u0|u0 q0|u0 t d]; cbn [run_op].
  - exists []. rewrite subscribe_queues, app_nil_r, lookup_insert_ne; [done|].
    intros <-. by rewrite fresh_queue_unallocated in Hl.
  - exists []. by rewrite unsubscribe_queues, app_nil_r.
  - rewrite publish_queue, Hl. destruct (decide _); simpl.
    + by eexists.
    + exists []. by rewrite app_nil_r.
Qed.

(** X5. No broker call drops or reorders what a queue already holds:
    after any calls, the queue's contents start with what was there
    before. *)
Theorem queued_events_are_kept ops b q l :
  queues b !! q = Some l →
  ∃ l', queues (run json_dumps ops b) !! q = Some (l ++ l').
Proof.
  revert b l. induction ops as [|o ops IH]; intros b l Hl.
  - exists []. by rewrite app_nil_r.
  - destruct (run_op_queue_grows o b q l Hl) as [l1 Hl1].
    destruct (IH _ _ Hl1) as [l2 Hl2].
    exists (l1 ++ l2). by rewrite app_assoc.
Qed.
End broker_more.


(** * Further properties of sessions and identity resolution *)
Section auth_more.
Import Auth.
Variable sign : string → payload → Z → string.
Variable checkpw : string → string → bool.

(** X6. A token of [create_session] is accepted up to and including
    its 604800th second and rejected from the next second on. *)
Theorem session_valid_for_seven_days key uid issued now :
  (0 ≤ now - issued)%Z →
  validate_session sign key (create_session sign key uid issued) now
  = Ok (if (now - issued <=? 604800)%Z then Some uid else None).
Proof.
  intros Hage. destruct (Z.leb_spec (now - issued) 604800) as [Hin|Hout].
  - unfold validate_session, create_session, dumps.
    rewrite loads_authentic; [done|]. unfold SESSION_MAX_AGE. lia.
  - apply validate_session_expired. unfold SESSION_MAX_AGE. lia.
Qed.

(** X7. What does not carry the key's signature is rejected: a string
    of another shape, a token whose signature differs, and so a token
    made with another secret whose signature differs. *)
Theorem session_forgeries_rejected key now :
  (∀ s, validate_session sign key (Unsigned s) now = Ok None)
  ∧ (∀ p ts sig, sig ≠ sign key p ts →
                 validate_session sign key (Signed p ts sig) now = Ok None)
  ∧ (∀ key' uid issued,
       sign key' (Object [("uid", uid)]) issued ≠ sign key (Object [("uid", uid)]) issued →
       validate_session sign key (create_session sign key' uid issued) now = Ok None).
Proof.
  split; [|split].
  - intros s. by apply (validate_session_bad_signature sign key (Unsigned s)).
  - intros p ts sig Hsig. by apply (validate_session_bad_signature sign key (Signed p ts sig)).
  - intros key' uid issued Hsig. unfold create_session, dumps.
    by apply (validate_session_bad_signature sign key (Signed _ _ _)).
Qed.

Lemma from_session_read_only request key now db :
  (get_current_user_from_session sign request key now db).2 = db.
Proof.
  unfold get_current_user_from_session.
  destruct (cookies request !! SESSION_COOKIE) as [c|]; [|done].
  destruct (token_is_empty c); [done|].
  unfold mbind, M_bind, lift_result, get.
  destruct (validate_session sign key c now) as [[uid|]|e]; [|done|done].
  destruct (bool_decide (uid = "")); [done|].
  by destruct (scalar_one_or_none (select_user uid db)).
Qed.

(** X8. [require_session] looks at the cookie only: its answer is the
    same whatever the request's headers are, it never writes to the
    database, and without a session cookie it answers 401 "Session
    required", a valid bearer token notwithstanding. *)
Theorem require_session_ignores_bearer_tokens cookies0 headers1 headers2 key now db :
  require_session sign (mkRequest cookies0 headers1) key now db
  = require_session sign (mkRequest cookies0 headers2) key now db
  ∧ (require_session sign (mkRequest cookies0 headers1) key now db).2 = db
  ∧ (cookies0 !! SESSION_COOKIE = None →
     require_session sign (mkRequest cookies0 headers1) key now db
     = (Raise (HTTPException 401 "Session required"), db)).
Proof.
  split; [done|]. split.
  - unfold require_session, mbind, M_bind.
    pose proof (from_session_read_only (mkRequest cookies0 headers1) key now db) as Hro.
    destruct (get_current_user_from_session sign _ key now db) as [[[u|]|e] db'];
      simpl in *; by subst.
  - intros Hc. unfold require_session, mbind, M_bind, get_current_user_from_session.
    simpl. by rewrite Hc.
Qed.

(** The token rows with their [last_used_at] cleared. *)
Lemma touch_token_frame ct now db :
  users (touch_token ct now db) = users db
  ∧ notifications (touch_token ct now db) = notifications db
  ∧ ClientToken.set_last_used_at None <$> client_tokens (touch_token ct now db)
    = ClientToken.set_last_used_at None <$> client_tokens db.
Proof.
  split; [done|]. split; [done|].
  unfold touch_token; simpl. rewrite <- list_fmap_compose.
  apply list_fmap_ext. intros i r _. simpl. by destruct (bool_decide _).
Qed.

Lemma check_tokens_frame raw now tokens db :
  users (check_tokens checkpw raw now tokens db).2 = users db
  ∧ notifications (check_tokens checkpw raw now tokens db).2 = notifications db
  ∧ ClientToken.set_last_used_at None <$> client_tokens (check_tokens checkpw raw now tokens db).2
    = ClientToken.set_last_used_at None <$> client_tokens db.
Proof.
  destruct (Nat.ltb_spec 72 (String.length raw)) as [Hlong|Hshort].
  { destruct tokens as [|ct tokens]; [done|]. by rewrite check_tokens_long. }
  induction tokens as [|ct tokens IH]; [done|].
  rewrite check_tokens_cons by done.
  destruct (checkpw raw (ClientToken.token_hash ct)); [|done].
  apply touch_token_frame.
Qed.

Lemma from_token_frame request now db :
  users (get_current_user_from_token checkpw request now db).2 = users db
  ∧ notifications (get_current_user_from_token checkpw request now db).2 = notifications db
  ∧ ClientToken.set_last_used_at None
      <$> client_tokens (get_current_user_from_token checkpw request now db).2
    = ClientToken.set_last_used_at None <$> client_tokens db.
Proof.
  unfold get_current_user_from_token.
  destruct (negb _); [done|]. unfold mbind, M_bind, get. apply check_tokens_frame.
Qed.

Lemma get_current_user_state request key now db :
  (get_current_user sign checkpw request key now db).2 = db
  ∨ (get_current_user sign checkpw request key now db).2
    = (get_current_user_from_token checkpw request now db).2.
Proof.
  unfold get_current_user, mbind, M_bind.
  pose proof (from_session_read_only request key now db) as Hro.
  destruct (get_current_user_from_session sign request key now db) as [[[u|]|e] db'];
    simpl in Hro; subst db'; [by left| |by left].
  right. by destruct (get_current_user_from_token checkpw request now db) as [[[u|]|e] db'].
Qed.

(** X9. Resolving the caller of a request changes nothing in the
    database but [last_used_at] of token rows: the users, the
    notifications, and every other column of every token row are as
    before, whatever the request and whether or not it is accepted. *)
Theorem get_current_user_writes_last_used_at_only request key now db :
  users (get_current_user sign checkpw request key now db).2 = users db
  ∧ notifications (get_current_user sign checkpw request key now db).2 = notifications db
  ∧ ClientToken.set_last_used_at None
      <$> client_tokens (get_current_user sign checkpw request key now db).2
    = ClientToken.set_last_used_at None <$> client_tokens db.
Proof.
  destruct (get_current_user_state request key now db) as [-> | ->]; [done|].
  apply from_token_frame.
Qed.
End auth_more.


(** * Properties of the token routes *)
Section token_routes.
Import Auth.
Variable hashpw : string → string → string.
Variable checkpw : string → string → bool.

(** X10. A token id that is unknown, or that belongs to another user,
    cannot be revoked: the answer is 404 "Token not found" either way
    and the table is untouched. *)
Theorem revoke_token_of_other_user_is_not_found tid user db :
  (∀ ct, ct ∈ client_tokens db →
         ClientToken.id ct = tid → ClientToken.user_id ct ≠ User.id user) →
  Tokens.revoke_token tid user db
  = (Raise (HTTPException 404 "Token not found"), db).
Proof.
  intros Hforeign. unfold Tokens.revoke_token, mbind, M_bind, get, lift_result.
  rewrite filter_none; [done|]. intros r Hr.
  destruct (bool_decide (ClientToken.id r = tid)) eqn:Hid; [|done].
  apply bool_decide_eq_true_1 in Hid. simpl.
  apply bool_decide_eq_false_2. by apply Hforeign.
Qed.

(** What [check_tokens] answers for a token bcrypt accepts: the owner
    of the first row whose hash verifies the token. *)
Lemma check_tokens_result raw now tokens db :
  (String.length raw ≤ 72)%nat →
  (check_tokens checkpw raw now tokens db).1
  = match List.find (λ ct, checkpw raw (ClientToken.token_hash ct)) tokens with
    | Some ct => scalar_one_or_none (select_user (ClientToken.user_id ct) db)
    | None => Ok None
    end.
Proof.
  intros Hlen. induction tokens as [|ct tokens IH]; [done|].
  rewrite check_tokens_cons by done. cbn [List.find].
  by destruct (checkpw raw (ClientToken.token_hash ct)).
Qed.

Lemma find_filter {A} (f g : A → bool) (l : list A) :
  (∀ x, x ∈ l → g x = false → f x = false) →
  List.find f (List.filter g l) = List.find f l.
Proof.
  induction l as [|x l IH]; intros Hfg; simpl; [done|].
  destruct (g x) eqn:Hg; simpl.
  - destruct (f x); [done|]. apply IH. intros y Hy. apply Hfg. by right.
  - rewrite (Hfg x) by (done || by left). apply IH. intros y Hy. apply Hfg. by right.
Qed.

(** X11. Revoking a token does not disturb the others: a bearer token
    of at most 72 bytes that no row with the revoked id verifies
    resolves after the revocation to what it resolved to before. *)
Theorem revoke_leaves_other_tokens_working request raw now t db :
  headers request !! "Authorization" = Some (String.append "Bearer " raw) →
  (String.length raw ≤ 72)%nat →
  (∀ ct, ct ∈ client_tokens db → ClientToken.id ct = ClientToken.id t →
         checkpw raw (ClientToken.token_hash ct) = false) →
  (get_current_user_from_token checkpw request now (Tokens.delete_token t db)).1
  = (get_current_user_from_token checkpw request now db).1.
Proof.
  intros Hh Hlen Hother. rewrite !(from_token_bearer checkpw _ raw) by done.
  rewrite !check_tokens_result by done. unfold Tokens.delete_token at 1. cbn [client_tokens set_client_tokens].
  rewrite find_filter; [done|].
  intros ct Hct Hid. apply Hother; [done|].
  apply negb_false_iff in Hid. by apply bool_decide_eq_true_1 in Hid.
Qed.

Lemma filter_all {A} (f : A → bool) (rows : list A) :
  (∀ r, r ∈ rows → f r = true) → List.filter f rows = rows.
Proof.
  induction rows as [|r rows IH]; intros Hf; simpl; [done|].
  rewrite (Hf r) by left. f_equal. apply IH. intros r' Hin. apply Hf. by right.
Qed.

(** X12. Creating a token and revoking it again gives back the table
    as it was, when the drawn id and the new hash are not in it yet. *)
Theorem create_then_revoke_restores_tokens name device_type user plaintext salt new_id now db :
  (∀ ct, ct ∈ client_tokens db →
         ClientToken.id ct ≠ new_id
         ∧ ClientToken.token_hash ct ≠ hashpw plaintext salt) →
  ∃ token db1,
    Tokens.create_token hashpw name device_type user plaintext salt new_id now db
    = (Ok (token, plaintext), db1)
    ∧ token ∈ client_tokens db1
    ∧ Tokens.revoke_token new_id user db1 = (Ok tt, db).
Proof.
  intros Hnew.
  set (token := ClientToken.mk new_id (User.id user)
                  (Auth.hash_token hashpw plaintext salt) name device_type
                  None now None).
  exists token, (set_client_tokens (client_tokens db ++ [token]) db).
  split; [|split].
  - unfold Tokens.create_token, Tokens.insert_token, mbind, M_bind, get.
    fold token. rewrite existsb_none; [done|].
    intros r Hr. destruct (Hnew r Hr) as [Hid Hhash].
    apply orb_false_iff. split; by apply bool_decide_eq_false_2.
  - simpl. apply elem_of_app. right. by left.
  - unfold Tokens.revoke_token, mbind, M_bind, get, lift_result.
    cbn [client_tokens set_client_tokens].
    rewrite List.filter_app, filter_none.
    + simpl. rewrite !bool_decide_eq_true_2 by done. simpl.
      unfold modify, Tokens.delete_token. cbn [client_tokens set_client_tokens].
      rewrite List.filter_app, filter_all.
      * simpl. rewrite bool_decide_eq_true_2 by done. simpl.
        rewrite app_nil_r. by destruct db.
      * intros r Hr. destruct (Hnew r Hr) as [Hid _].
        apply negb_true_iff. by apply bool_decide_eq_false_2.
    + intros r Hr. destruct (Hnew r Hr) as [Hid _].
      by rewrite bool_decide_eq_false_2.
Qed.

Lemma insert_desc_perm {A} (column : A → Z) x (sorted : list A) :
  Query.insert_desc column x sorted ≡ₚ x :: sorted.
Proof.
  induction sorted as [|y rest IH]; simpl; [done|].
  destruct (column y <=? column x)%Z; [done|].
  rewrite IH. apply Permutation_swap.
Qed.

Lemma insert_desc_sorted {A} (column : A → Z) x (sorted : list A) :
  StronglySorted (Query.desc_by column) sorted →
  StronglySorted (Query.desc_by column) (Query.insert_desc column x sorted).
Proof.
  induction 1 as [|y rest Hrest IH Hy]; simpl.
  - by repeat constructor.
  - destruct (Z.leb_spec (column y) (column x)) as [Hle|Hlt].
    + constructor; [by constructor|]. constructor; [done|].
      eapply Forall_impl; [exact Hy|]. unfold Query.desc_by. intros z Hz. lia.
    + constructor; [done|]. rewrite insert_desc_perm. constructor; [|done].
      unfold Query.desc_by. lia.
Qed.

Lemma order_by_desc_from {A} (column : A → Z) (rows sorted : list A) :
  foldl (λ sorted x, Query.insert_desc column x sorted) sorted rows ≡ₚ rows ++ sorted
  ∧ (StronglySorted (Query.desc_by column) sorted →
     StronglySorted (Query.desc_by column)
       (foldl (λ sorted x, Query.insert_desc column x sorted) sorted rows)).
Proof.
  revert sorted. induction rows as [|x rows IH]; intros sorted; simpl; [done|].
  destruct (IH (Query.insert_desc column x sorted)) as [Hperm Hsorted]. split.
  - rewrite Hperm, insert_desc_perm. by rewrite Permutation_middle.
  - intros Hs. by apply Hsorted, insert_desc_sorted.
Qed.

Lemma order_by_desc_perm {A} (column : A → Z) (rows : list A) :
  Query.order_by_desc column rows ≡ₚ rows.
Proof.
  unfold Query.order_by_desc.
  rewrite (proj1 (order_by_desc_from column rows [])). by rewrite app_nil_r.
Qed.

Lemma order_by_desc_sorted {A} (column : A → Z) (rows : list A) :
  StronglySorted (Query.desc_by column) (Query.order_by_desc column rows).
Proof. apply order_by_desc_from. constructor. Qed.

(** X13. [list_tokens] answers with the caller's token rows, each of
    them once and no row of another user, the newest first, and does
    not write. *)
Theorem list_tokens_shows_own_tokens_newest_first user db :
  ∃ rows,
    TokenViews.list_tokens user db = (Ok (TokenViews.model_validate <$> rows), db)
    ∧ rows ≡ₚ List.filter (λ r, bool_decide (ClientToken.user_id r = User.id user))
                          (client_tokens db)
    ∧ Forall (λ r, ClientToken.user_id r = User.id user) rows
    ∧ StronglySorted (λ x y, (ClientToken.created_at y ≤ ClientToken.created_at x)%Z) rows.
Proof.
  exists (TokenViews.select_tokens_of user db).
  split; [done|]. split; [apply order_by_desc_perm|]. split.
  - apply Forall_forall. intros r Hr.
    unfold TokenViews.select_tokens_of in Hr. rewrite order_by_desc_perm in Hr.
    apply list_elem_of_In, List.filter_In in Hr as [_ Hr].
    by apply bool_decide_eq_true_1 in Hr.
  - apply order_by_desc_sorted.
Qed.
End token_routes.


(** * Properties of the notification routes *)
Section notification_routes.
Import Notifications NotificationViews.
Variable json_dumps : json → string.
Variable model_dump : Notification.t → json.

Lemma select_owned_none nid user d :
  (∀ n, n ∈ notifications d →
        Notification.id n = nid → Notification.user_id n ≠ User.id user) →
  select_owned nid user d = [].
Proof.
  intros Hforeign. unfold select_owned. apply filter_none. intros r Hr.
  destruct (bool_decide (Notification.id r = nid)) eqn:Hid; [|done].
  apply bool_decide_eq_true_1 in Hid. simpl.
  apply bool_decide_eq_false_2. by apply Hforeign.
Qed.

(** X14. [create_notification] with an unused id stores one new row,
    unread, never read, owned by the caller, publishes it as a
    [notification] event for the caller, and the row can be read back
    with [get_notification]. *)
Theorem create_notification_stores_unread_and_publishes payload user new_id now a :
  (∀ n, n ∈ notifications (db a) → Notification.id n ≠ new_id) →
  ∃ resp a',
    create_notification json_dumps model_dump payload user new_id now a = (Ok resp, a')
    ∧ Notification.id resp = new_id
    ∧ Notification.user_id resp = User.id user
    ∧ Notification.status resp = unread
    ∧ Notification.read_at resp = None
    ∧ notifications (db a') = notifications (db a) ++ [resp]
    ∧ broker a' = Sse.publish json_dumps (User.id user) "notification"
                    (model_dump resp) (broker a)
    ∧ get_notification new_id user a' = (Ok resp, a').
Proof.
  intros Hnew.
  set (resp := Notification.mk new_id (User.id user) (c_title payload) (c_message payload)
                 (c_priority payload) unread (c_source payload) now None
                 (c_metadata payload)).
  exists resp, (App (set_notifications (notifications (db a) ++ [resp]) (db a))
                    (Sse.publish json_dumps (User.id user) "notification"
                       (model_dump resp) (broker a))).
  split.
  { unfold create_notification, mbind, M_bind, get. fold resp.
    rewrite existsb_none; [done|].
    intros r Hr. apply bool_decide_eq_false_2. by apply Hnew. }
  do 6 (split; [done|]).
  unfold get_notification, mbind, M_bind, get, lift_result, select_owned.
  cbn [db notifications set_notifications].
  rewrite List.filter_app, filter_none.
  - simpl. by rewrite !bool_decide_eq_true_2.
  - intros r Hr. rewrite bool_decide_eq_false_2; [done|]. by apply Hnew.
Qed.

(** X15. A notification id that is unknown, or that belongs to another
    user, is "not found" for reading, updating and deleting alike: each
    answers 404 "Notification not found", writes nothing and publishes
    nothing. *)
Theorem foreign_notification_is_not_found nid payload user now a :
  (∀ n, n ∈ notifications (db a) →
        Notification.id n = nid → Notification.user_id n ≠ User.id user) →
  get_notification nid user a
  = (Raise (HTTPException 404 "Notification not found"), a)
  ∧ update_notification json_dumps nid payload user now a
    = (Raise (HTTPException 404 "Notification not found"), a)
  ∧ delete_notification nid user a
    = (Raise (HTTPException 404 "Notification not found"), a).
Proof.
  intros Hforeign. pose proof (select_owned_none nid user (db a) Hforeign) as Hsel.
  unfold get_notification, update_notification, delete_notification,
    mbind, M_bind, get, lift_result.
  by rewrite Hsel.
Qed.

Lemma filter_other_ids (rows : list Notification.t) n m :
  m ∈ rows → Notification.id m ≠ Notification.id n →
  m ∈ List.filter (λ r, negb (bool_decide (Notification.id r = Notification.id n))) rows.
Proof.
  intros Hm Hid. apply list_elem_of_In, List.filter_In. split; [by apply list_elem_of_In|].
  apply negb_true_iff. by apply bool_decide_eq_false_2.
Qed.

(** X16. Deleting an own notification removes its row and no other,
    publishes nothing, and makes a later read of it "not found". *)
Theorem delete_notification_removes_the_row nid user a n :
  notifications_pk (db a) →
  n ∈ notifications (db a) →
  Notification.id n = nid →
  Notification.user_id n = User.id user →
  ∃ a',
    delete_notification nid user a = (Ok tt, a')
    ∧ broker a' = broker a
    ∧ notifications (db a')
      = List.filter (λ r, negb (bool_decide (Notification.id r = nid))) (notifications (db a))
    ∧ (∀ m, m ∈ notifications (db a) → Notification.id m ≠ nid →
            m ∈ notifications (db a'))
    ∧ get_notification nid user a'
      = (Raise (HTTPException 404 "Notification not found"), a').
Proof.
  intros Hpk Hin <- Hu.
  exists (on_db (delete_row n) a). split.
  { unfold delete_notification, mbind, M_bind, get, lift_result, select_owned.
    rewrite (select_by_pk Notification.id
               (λ r, bool_decide (Notification.user_id r = User.id user))
               (notifications (db a)) n Hpk Hin)
      by (by apply bool_decide_eq_true_2).
    done. }
  split; [done|]. split; [done|]. split.
  - intros m Hm Hid. cbn [db on_db delete_row notifications set_notifications].
    by apply filter_other_ids.
  - unfold get_notification, mbind, M_bind, get, lift_result.
    rewrite select_owned_none; [done|].
    intros m Hm Hid. exfalso.
    cbn [db on_db delete_row notifications set_notifications] in Hm.
    apply list_elem_of_In, List.filter_In in Hm as [_ Hm].
    apply negb_true_iff in Hm. by apply bool_decide_eq_false_1 in Hm.
Qed.
Lemma apply_update_fields payload now n :
  Notification.set_read_at (Notification.read_at (apply_update payload now n))
    (Notification.set_status (Notification.status (apply_update payload now n)) n)
  = apply_update payload now n.
Proof.
  destruct n. unfold apply_update.
  destruct (u_status payload) as [st|]; [|done]. by destruct (_ && _).
Qed.

(** X17. An update of an own notification writes [status] and
    [read_at] of that row and nothing else: the answer is the stored
    row with these two columns replaced, the status is the one asked
    for whatever the old one was, the other rows and tables stay. *)
Theorem update_notification_writes_two_columns nid payload user now a n :
  notifications_pk (db a) →
  n ∈ notifications (db a) →
  Notification.id n = nid →
  Notification.user_id n = User.id user →
  ∃ resp a',
    update_notification json_dumps nid payload user now a = (Ok resp, a')
    ∧ resp = Notification.set_read_at (Notification.read_at resp)
               (Notification.set_status (Notification.status resp) n)
    ∧ Notification.status resp = default (Notification.status n) (u_status payload)
    ∧ users (db a') = users (db a)
    ∧ client_tokens (db a') = client_tokens (db a)
    ∧ notifications (db a')
      = (λ r, if bool_decide (Notification.id r = nid) then resp else r)
          <$> notifications (db a).
Proof.
  intros Hpk Hin Hid Hu.
  exists (apply_update payload now n),
    (App (store_notification (apply_update payload now n) (db a))
         (Sse.publish json_dumps (User.id user) "status_change"
            (status_change_data (apply_update payload now n)) (broker a))).
  split; [by apply update_notification_owned|].
  split; [by rewrite apply_update_fields|].
  split; [apply apply_update_status|].
  split; [done|]. split; [done|].
  cbn [db store_notification notifications set_notifications].
  by rewrite apply_update_id, Hid.
Qed.

Lemma sqlite_integer_spec n :
  Query.sqlite_integer n = true ↔ (- 2 ^ 63 ≤ n < 2 ^ 63)%Z.
Proof. unfold Query.sqlite_integer. rewrite andb_true_iff. lia. Qed.

(** What [list_notifications] answers, one case for each way the
    statement can end. *)
Lemma list_notifications_cases since status priority source limit offset user a :
  list_notifications since status priority source limit offset user a
  = if Query.sqlite_integer offset && Query.sqlite_integer limit
    then (Ok (mkPage
                (let skipped :=
                   drop (Z.to_nat offset)
                     (Query.order_by_desc Notification.created_at
                        (List.filter (matches since status priority source user)
                                     (notifications (db a)))) in
                 if (limit <? 0)%Z then skipped else take (Z.to_nat limit) skipped)
                (Z.of_nat (length (List.filter (matches since status priority source user)
                                               (notifications (db a)))))
                limit offset), a)
    else (Raise OverflowError, a).
Proof.
  unfold list_notifications, Query.sql_offset, Query.sql_limit.
  cbv [mbind M_bind result_bind get lift_result mret M_ret].
  by destruct (Query.sqlite_integer offset), (Query.sqlite_integer limit).
Qed.

Lemma list_notifications_run since status priority source limit offset user a :
  (- 2 ^ 63 ≤ limit < 2 ^ 63)%Z →
  (- 2 ^ 63 ≤ offset < 2 ^ 63)%Z →
  list_notifications since status priority source limit offset user a
  = (Ok (mkPage
           (let skipped :=
              drop (Z.to_nat offset)
                (Query.order_by_desc Notification.created_at
                   (List.filter (matches since status priority source user)
                                (notifications (db a)))) in
            if (limit <? 0)%Z then skipped else take (Z.to_nat limit) skipped)
           (Z.of_nat (length (List.filter (matches since status priority source user)
                                          (notifications (db a)))))
           limit offset), a).
Proof.
  intros Hl%sqlite_integer_spec Ho%sqlite_integer_spec.
  by rewrite list_notifications_cases, Hl, Ho.
Qed.

Lemma list_notifications_ok since status priority source limit offset user a page a' :
  list_notifications since status priority source limit offset user a = (Ok page, a') →
  a' = a
  ∧ items page
    `sublist_of` Query.order_by_desc Notification.created_at
                   (List.filter (matches since status priority source user)
                                (notifications (db a)))
  ∧ total page
    = Z.of_nat (length (List.filter (matches since status priority source user)
                                    (notifications (db a)))).
Proof.
  rewrite list_notifications_cases. destruct (_ && _); [|done].
  intros [= <- <-]. split; [done|]. split; [|done]. cbn [items].
  destruct (limit <? 0)%Z.
  - apply sublist_drop.
  - etrans; [apply sublist_take | apply sublist_drop].
Qed.

Lemma sublist_sorted {A} (R : relation A) (l k : list A) :
  l `sublist_of` k → StronglySorted R k → StronglySorted R l.
Proof.
  induction 1 as [|x l k Hlk IH|x l k Hlk IH]; intros Hs; [done|..].
  - apply StronglySorted_inv in Hs as [Hs Hx]. constructor; [by apply IH|].
    apply Forall_forall. intros y Hy. rewrite Forall_forall in Hx.
    apply Hx. by eapply elem_of_sublist.
  - apply StronglySorted_inv in Hs as [Hs _]. by apply IH.
Qed.

(** X18. [list_notifications] reports as [total] the number of the
    caller's notifications that pass the filters, whatever the page,
    and for a limit and an offset that are not negative and fit the
    64 bits of an SQLite integer the page holds
    [min limit (max 0 (total - offset))] items. *)
Theorem list_notifications_page_size since status priority source limit offset user a :
  (0 ≤ limit < 2 ^ 63)%Z →
  (0 ≤ offset < 2 ^ 63)%Z →
  ∃ page,
    list_notifications since status priority source limit offset user a = (Ok page, a)
    ∧ total page
      = Z.of_nat (length (List.filter (matches since status priority source user)
                                      (notifications (db a))))
    ∧ Z.of_nat (length (items page))
      = Z.min limit (Z.max 0 (total page - offset)).
Proof.
  intros Hlimit Hoffset. eexists. split; [apply list_notifications_run; lia|].
  split; [done|]. cbn [items total].
  destruct (Z.ltb_spec limit 0) as [?|_]; [lia|].
  rewrite length_take, length_drop, (Permutation_length (order_by_desc_perm _ _)).
  lia.
Qed.

(** X19. Whenever [list_notifications] answers with a page, every item
    of it is a stored notification of the caller that passes the
    filters, the items come newest first, and nothing was written. *)
Theorem list_notifications_items_are_own_and_ordered since status priority source
    limit offset user a page a' :
  list_notifications since status priority source limit offset user a = (Ok page, a') →
  a' = a
  ∧ Forall (λ n, n ∈ notifications (db a)
                 ∧ Notification.user_id n = User.id user
                 ∧ matches since status priority source user n = true)
           (items page)
  ∧ StronglySorted (λ x y, (Notification.created_at y ≤ Notification.created_at x)%Z)
                   (items page).
Proof.
  intros (-> & Hsub & _)%list_notifications_ok. split; [done|]. split.
  - apply Forall_forall. intros n Hn.
    apply (λ H, elem_of_sublist _ _ _ H Hsub) in Hn.
    rewrite order_by_desc_perm in Hn.
    apply list_elem_of_In, List.filter_In in Hn as [Hn Hm].
    split; [by apply list_elem_of_In|]. split; [|done].
    unfold matches in Hm. repeat (apply andb_true_iff in Hm as [Hm _]).
    by apply bool_decide_eq_true_1 in Hm.
  - eapply (sublist_sorted (Query.desc_by Notification.created_at));
      [exact Hsub | apply order_by_desc_sorted].
Qed.

(** X20. Pages fit together: for sizes and offsets that are not
    negative and stay within the 64 bits of an SQLite integer, a page
    of [l1] items at [offset] followed by the page of [l2] items at
    [offset + l1] is the page of [l1 + l2] items at [offset]. *)
Theorem list_notifications_pages_compose since status priority source l1 l2 offset user a :
  (0 ≤ l1)%Z → (0 ≤ l2)%Z → (0 ≤ offset)%Z →
  (l1 + l2 < 2 ^ 63)%Z → (offset + l1 < 2 ^ 63)%Z →
  ∃ p1 p2 p12,
    list_notifications since status priority source l1 offset user a = (Ok p1, a)
    ∧ list_notifications since status priority source l2 (offset + l1) user a = (Ok p2, a)
    ∧ list_notifications since status priority source (l1 + l2) offset user a = (Ok p12, a)
    ∧ items p1 ++ items p2 = items p12.
Proof.
  intros H1 H2 Ho Hl Hol. eexists _, _, _.
  split; [apply list_notifications_run; lia|].
  split; [apply list_notifications_run; lia|].
  split; [apply list_notifications_run; lia|]. cbn [items].
  destruct (Z.ltb_spec l1 0) as [?|_]; [lia|].
  destruct (Z.ltb_spec l2 0) as [?|_]; [lia|].
  destruct (Z.ltb_spec (l1 + l2) 0) as [?|_]; [lia|].
  rewrite !Z2Nat.inj_add by done. rewrite <- drop_drop. apply take_take_drop.
Qed.

(** X28. An offset of [2 ^ 63] or more passes the [ge=0] check, and a
    limit below [- 2 ^ 63] passes the [le=200] check, but SQLite takes
    neither: [list_notifications] then ends in [OverflowError] instead
    of a page, with nothing written. *)
Theorem list_notifications_out_of_range since status priority source limit offset user a :
  (2 ^ 63 ≤ offset)%Z ∨ (limit < - 2 ^ 63)%Z →
  list_notifications since status priority source limit offset user a
  = (Raise OverflowError, a).
Proof.
  intros Hout. rewrite list_notifications_cases.
  destruct (Query.sqlite_integer offset && Query.sqlite_integer limit) eqn:Hin; [|done].
  apply andb_true_iff in Hin as [Ho%sqlite_integer_spec Hl%sqlite_integer_spec]. lia.
Qed.

(** X21. The source filter is applied only to a non-empty string: an
    empty [source] lists what no [source] lists, while a non-empty one
    lists only rows carrying exactly that source. *)
Theorem list_notifications_source_filter since status priority limit offset user a :
  list_notifications since status priority (Some "") limit offset user a
  = list_notifications since status priority None limit offset user a
  ∧ (∀ src page,
       src ≠ "" →
       list_notifications since status priority (Some src) limit offset user a
       = (Ok page, a) →
       Forall (λ n, Notification.source n = Some src) (items page)).
Proof.
  split; [done|]. intros src page Hsrc (_ & Hsub & _)%list_notifications_ok.
  apply Forall_forall. intros n Hn.
  apply (λ H, elem_of_sublist _ _ _ H Hsub) in Hn.
  rewrite order_by_desc_perm in Hn.
  apply list_elem_of_In, List.filter_In in Hn as [_ Hm].
  unfold matches in Hm. apply andb_true_iff in Hm as [_ Hm].
  rewrite bool_decide_eq_false_2 in Hm by done.
  by apply bool_decide_eq_true_1 in Hm.
Qed.
End notification_routes.


(** * Properties of the login flow *)
Section oidc_facts.
Import Auth Oidc.
Variable sign : string → payload → Z → string.

(** The three ways a callback with a pending state can end once the
    claims are there. *)
Lemma callback_pending settings state claims sub new_id now st :
  state ∈ pending_states st →
  Auth.dict_lookup "sub" claims = Some sub →
  let email := dict_get_default "email" claims "" in
  let name := dict_get_default "name" claims
                (dict_get_default "preferred_username" claims "") in
  let st1 := on_pending (λ s, s ∖ {[state]}) st in
  callback sign settings state (Ok claims) new_id now st
  = match scalar_one_or_none
            (List.filter (λ u, bool_decide (User.sub u = sub)) (users (db st))) with
    | Ok (Some u) =>
        (Ok (Redirect "/" 302
               (Some (create_session sign (SECRET_KEY settings) (User.id u) now)) false),
         on_users (store_user (refresh_user email name now u)) st1)
    | Ok None =>
        if existsb (λ r, bool_decide (User.id r = new_id)
                         || bool_decide (User.sub r = sub)) (users (db st))
        then (Raise IntegrityError, st1)
        else (Ok (Redirect "/" 302
                    (Some (create_session sign (SECRET_KEY settings) new_id now)) false),
              on_users (λ rows, rows ++ [User.mk new_id sub email name now now]) st1)
    | Raise e => (Raise e, st1)
    end.
Proof.
  intros Hpending Hsub email name st1.
  unfold callback, mbind, M_bind at 1, get.
  rewrite bool_decide_eq_true_2 by done. cbn [negb].
  unfold M_bind, modify, get, lift_result, dict_getitem. rewrite Hsub.
  fold email name. cbn [db on_pending]. fold st1.
  destruct (scalar_one_or_none _) as [[u|]|e]; [done| |done].
  unfold insert_user, mbind, M_bind, get. cbn [User.id User.sub db on_pending].
  by destruct (existsb _ _).
Qed.

Lemma callback_unknown_state settings state id_claims new_id now st :
  state ∉ pending_states st →
  callback sign settings state id_claims new_id now st
  = (Ok (Redirect "/auth/login" 307 None false), st).
Proof.
  intros Hnot. unfold callback, mbind, M_bind, get.
  by rewrite bool_decide_eq_false_2.
Qed.

Lemma callback_without_sub settings state claims new_id now st :
  state ∈ pending_states st →
  Auth.dict_lookup "sub" claims = None →
  callback sign settings state (Ok claims) new_id now st
  = (Raise KeyError, on_pending (λ s, s ∖ {[state]}) st).
Proof.
  intros Hpending Hsub. unfold callback, mbind, M_bind at 1, get.
  rewrite bool_decide_eq_true_2 by done. cbn [negb].
  unfold M_bind, modify, lift_result, dict_getitem. by rewrite Hsub.
Qed.

Lemma callback_provider_error settings state e new_id now st :
  state ∈ pending_states st →
  callback sign settings state (Raise e) new_id now st
  = (Raise e, on_pending (λ s, s ∖ {[state]}) st).
Proof.
  intros Hpending. unfold callback, mbind, M_bind at 1, get.
  by rewrite bool_decide_eq_true_2.
Qed.

(** Where a callback leaves the pending states and the tables next to
    the users. *)
Lemma callback_state settings state id_claims new_id now st :
  pending_states (callback sign settings state id_claims new_id now st).2
  = pending_states st ∖ {[state]}
  ∧ client_tokens (db (callback sign settings state id_claims new_id now st).2)
    = client_tokens (db st)
  ∧ notifications (db (callback sign settings state id_claims new_id now st).2)
    = notifications (db st).
Proof.
  destruct (decide (state ∈ pending_states st)) as [Hin|Hnot].
  - destruct id_claims as [claims|e].
    + destruct (Auth.dict_lookup "sub" claims) as [sub|] eqn:Hsub.
      * rewrite (callback_pending settings state claims sub) by done.
        destruct (scalar_one_or_none _) as [[u|]|e]; [done| |done].
        by destruct (existsb _ _).
      * by rewrite callback_without_sub.
    + by rewrite callback_provider_error.
  - rewrite callback_unknown_state by done. split; [|done]. simpl. set_solver.
Qed.

(** X22. The [state] of the login flow works once. A callback whose
    state is not pending is sent back to the login page and changes
    nothing; any callback takes its state out of the pending set,
    whether it then succeeds or fails; so the same state presented
    again is sent back to the login page. *)
Theorem oidc_state_is_single_use settings state id_claims new_id now st :
  (state ∉ pending_states st →
   callback sign settings state id_claims new_id now st
   = (Ok (Redirect "/auth/login" 307 None false), st))
  ∧ (state ∉ pending_states (callback sign settings state id_claims new_id now st).2)
  ∧ (∀ id_claims' new_id' now',
       callback sign settings state id_claims' new_id' now'
         (callback sign settings state id_claims new_id now st).2
       = (Ok (Redirect "/auth/login" 307 None false),
          (callback sign settings state id_claims new_id now st).2)).
Proof.
  assert (state ∉ pending_states (callback sign settings state id_claims new_id now st).2)
    as Hgone.
  { destruct (callback_state settings state id_claims new_id now st) as [-> _]. set_solver. }
  split; [apply callback_unknown_state|]. split; [done|].
  intros id_claims' new_id' now'. by apply callback_unknown_state.
Qed.

(** X23. [login] records the drawn state before it asks the provider
    for its configuration: the state is pending afterwards also when
    that request fails, and the database is not touched. *)
Theorem login_records_state_first settings drawn oidc_config st :
  pending_states (login settings drawn oidc_config st).2 = pending_states st ∪ {[drawn]}
  ∧ db (login settings drawn oidc_config st).2 = db st
  ∧ (∀ e, oidc_config = Raise e →
          login settings drawn oidc_config st
          = (Raise e, on_pending (λ s, s ∪ {[drawn]}) st)).
Proof.
  unfold login, mbind, M_bind, modify, lift_result.
  destruct oidc_config as [cfg|e].
  - destruct (build_authorization_url cfg settings drawn); by repeat split.
  - split; [done|]. split; [done|]. by intros e' [= <-].
Qed.
Lemma select_key_unique {A} (key : A → string) (rows : list A) t :
  NoDup (key <$> rows) → t ∈ rows →
  List.filter (λ r, bool_decide (key r = key t)) rows = [t].
Proof.
  intros Hnd Hin. induction rows as [|r rows IH]; [by apply elem_of_nil in Hin|].
  rewrite fmap_cons in Hnd. apply NoDup_cons in Hnd as [Hr Hnd].
  apply elem_of_cons in Hin as [->|Hin]; simpl.
  - rewrite bool_decide_eq_true_2 by done. f_equal.
    apply filter_none. intros r' Hin'.
    apply bool_decide_eq_false_2. intros Hk. apply Hr.
    rewrite <- Hk. by apply list_elem_of_fmap_2.
  - rewrite bool_decide_eq_false_2; [by apply IH|].
    intros Hk. apply Hr. rewrite Hk. by apply list_elem_of_fmap_2.
Qed.

Lemma select_key_cases {A} (key : A → string) (rows : list A) k :
  NoDup (key <$> rows) →
  match List.filter (λ r, bool_decide (key r = k)) rows with
  | [] => ∀ r, r ∈ rows → key r ≠ k
  | [t] => t ∈ rows ∧ key t = k
  | _ => False
  end.
Proof.
  intros Hnd.
  destruct (List.filter (λ r, bool_decide (key r = k)) rows) as [|t rest] eqn:Hf.
  - intros r Hr Hk.
    assert (r ∈ List.filter (λ r, bool_decide (key r = k)) rows) as Hin.
    { apply list_elem_of_In, List.filter_In. split; [by apply list_elem_of_In|].
      by apply bool_decide_eq_true_2. }
    rewrite Hf in Hin. by apply elem_of_nil in Hin.
  - assert (t ∈ rows ∧ key t = k) as [Ht Hk].
    { assert (t ∈ List.filter (λ r, bool_decide (key r = k)) rows) as Hin
        by (rewrite Hf; left).
      apply list_elem_of_In, List.filter_In in Hin as [Hin Hk].
      split; [by apply list_elem_of_In | by apply bool_decide_eq_true_1 in Hk]. }
    subst k. rewrite (select_key_unique key rows t Hnd Ht) in Hf.
    injection Hf as <-. done.
Qed.

Lemma existsb_false_elem {A} (f : A → bool) (rows : list A) r :
  existsb f rows = false → r ∈ rows → f r = false.
Proof.
  induction rows as [|x rows IH]; simpl; [by intros _ ?%elem_of_nil|].
  intros [Hx Hrest]%orb_false_iff [->|Hin]%elem_of_cons; [done|by apply IH].
Qed.

Lemma store_user_ids u rows :
  User.id <$> store_user u rows = User.id <$> rows.
Proof.
  unfold store_user. rewrite <- list_fmap_compose.
  apply list_fmap_ext. intros i r _. simpl.
  destruct (bool_decide (User.id r = User.id u)) eqn:Hk; [|done].
  by apply bool_decide_eq_true_1 in Hk.
Qed.

Lemma store_refreshed_subs email name now u rows :
  NoDup (User.id <$> rows) → u ∈ rows →
  User.sub <$> store_user (refresh_user email name now u) rows = User.sub <$> rows.
Proof.
  intros Hnd Hu. unfold store_user. rewrite <- list_fmap_compose.
  apply list_fmap_ext. intros i r Hr. simpl.
  destruct (bool_decide (User.id r = User.id u)) eqn:Hk; [|done].
  apply bool_decide_eq_true_1 in Hk.
  by rewrite (pk_inj User.id rows r u Hnd (list_elem_of_lookup_2 _ _ _ Hr) Hu Hk).
Qed.

Lemma store_user_elem u0 u rows :
  u0 ∈ rows → User.id u = User.id u0 → u ∈ store_user u rows.
Proof.
  intros Hin Hid. unfold store_user. apply list_elem_of_fmap. exists u0.
  split; [|done]. by rewrite bool_decide_eq_true_2.
Qed.

Lemma require_session_resolves request key now d c uid u :
  cookies request !! SESSION_COOKIE = Some c →
  validate_session sign key c now = Ok (Some uid) →
  uid ≠ "" →
  select_user uid d = [u] →
  require_session sign request key now d = (Ok u, d).
Proof.
  intros Hc Hv Hne Hu. unfold require_session, mbind, M_bind.
  by rewrite (session_valid_resolves sign request key now d c uid u).
Qed.

(** X24. A callback with a pending state and claims that carry a [sub]
    logs the user in: it answers with a redirect to "/" that sets a
    session cookie, the user row with that [sub] holds the e-mail of
    the claims and the time of the login, and for the next seven days
    a request with that cookie is resolved by [require_session] to
    that row. The user table has its primary key and unique [sub], and
    the drawn id is unused and not empty. *)
Theorem callback_logs_the_user_in settings state claims sub new_id now now' headers0 st :
  state ∈ pending_states st →
  Auth.dict_lookup "sub" claims = Some sub →
  NoDup (User.id <$> users (db st)) →
  NoDup (User.sub <$> users (db st)) →
  (∀ u, u ∈ users (db st) → User.id u ≠ "" ∧ User.id u ≠ new_id) →
  new_id ≠ "" →
  (0 ≤ now' - now < SESSION_MAX_AGE)%Z →
  ∃ u cookie st',
    callback sign settings state (Ok claims) new_id now st
    = (Ok (Redirect "/" 302 (Some cookie) false), st')
    ∧ u ∈ users (db st')
    ∧ User.sub u = sub
    ∧ User.email u = dict_get_default "email" claims ""
    ∧ User.last_login_at u = now
    ∧ require_session sign (mkRequest {[SESSION_COOKIE := cookie]} headers0)
        (SECRET_KEY settings) now' (db st')
      = (Ok u, db st').
Proof.
  intros Hpending Hsub Hids Hsubs Hold Hnew Hage.
  rewrite (callback_pending settings state claims sub) by done.
  pose proof (select_key_cases User.sub (users (db st)) sub Hsubs) as Hcases.
  set (email := dict_get_default "email" claims "").
  set (name := dict_get_default "name" claims
                 (dict_get_default "preferred_username" claims "")).
  destruct (List.filter (λ u, bool_decide (User.sub u = sub)) (users (db st)))
    as [|u0 [|u1 rest]]; cbn [scalar_one_or_none]; [| |done].
  - rewrite existsb_none.
    2:{ intros r Hr. apply orb_false_iff.
        split; apply bool_decide_eq_false_2; [by apply Hold | by apply Hcases]. }
    set (u := User.mk new_id sub email name now now).
    eexists u, _, _. split; [reflexivity|].
    cbn [db on_users on_pending users].
    split; [apply elem_of_app; right; by left|].
    do 3 (split; [done|]).
    eapply (require_session_resolves _ _ _ _ _ new_id).
    + apply lookup_singleton_eq.
    + by apply validate_session_create_session.
    + done.
    + unfold select_user. cbn [users]. rewrite List.filter_app, filter_none.
      * simpl. by rewrite bool_decide_eq_true_2.
      * intros r Hr. apply bool_decide_eq_false_2. by apply Hold.
  - destruct Hcases as [Hu0 Hsub0].
    set (u := refresh_user email name now u0).
    eexists u, _, _. split; [reflexivity|].
    cbn [db on_users on_pending users].
    split; [by apply (store_user_elem u0)|].
    do 3 (split; [done|]).
    eapply (require_session_resolves _ _ _ _ _ (User.id u0)).
    + apply lookup_singleton_eq.
    + by apply validate_session_create_session.
    + by apply Hold.
    + unfold select_user. cbn [users].
      apply (select_key_unique User.id _ u).
      * by rewrite store_user_ids.
      * by apply (store_user_elem u0).
Qed.

(** X25. Whatever a callback is given and however it ends, it keeps
    the user table's keys: ids and [sub]s stay unique, a known [sub]
    gets no second row, at most one row is added, and tokens and
    notifications are not touched. *)
Theorem callback_keeps_user_keys_unique settings state id_claims new_id now st :
  NoDup (User.id <$> users (db st)) →
  NoDup (User.sub <$> users (db st)) →
  NoDup (User.id <$> users (db (callback sign settings state id_claims new_id now st).2))
  ∧ NoDup (User.sub <$> users (db (callback sign settings state id_claims new_id now st).2))
  ∧ (List.length (users (db (callback sign settings state id_claims new_id now st).2))
     ≤ S (List.length (users (db st))))%nat
  ∧ client_tokens (db (callback sign settings state id_claims new_id now st).2)
    = client_tokens (db st)
  ∧ notifications (db (callback sign settings state id_claims new_id now st).2)
    = notifications (db st).
Proof.
  intros Hids Hsubs.
  destruct (callback_state settings state id_claims new_id now st) as (_ & Htok & Hnot).
  cut (NoDup (User.id <$> users (db (callback sign settings state id_claims new_id now st).2))
       ∧ NoDup (User.sub <$> users (db (callback sign settings state id_claims new_id now st).2))
       ∧ (List.length (users (db (callback sign settings state id_claims new_id now st).2))
          ≤ S (List.length (users (db st))))%nat).
  { intros (? & ? & ?). by repeat split. }
  clear Htok Hnot.
  destruct (decide (state ∈ pending_states st)) as [Hin|Hnin].
  2:{ rewrite callback_unknown_state by done. simpl. repeat split; [done|done|lia]. }
  destruct id_claims as [claims|e].
  2:{ rewrite callback_provider_error by done. simpl. repeat split; [done|done|lia]. }
  destruct (Auth.dict_lookup "sub" claims) as [sub|] eqn:Hsub.
  2:{ rewrite callback_without_sub by done. simpl. repeat split; [done|done|lia]. }
  rewrite (callback_pending settings state claims sub) by done.
  pose proof (select_key_cases User.sub (users (db st)) sub Hsubs) as Hcases.
  destruct (List.filter (λ u, bool_decide (User.sub u = sub)) (users (db st)))
    as [|u0 [|u1 rest]]; cbn [scalar_one_or_none]; [| |done].
  - destruct (existsb _ (users (db st))) eqn:Hex.
    { simpl. repeat split; [done|done|lia]. }
    cbn [snd db on_users on_pending users].
    rewrite !fmap_app, length_app. simpl. repeat split; [| |lia].
    + apply NoDup_app. split; [done|]. split; [|apply NoDup_singleton].
      intros i (r & Hi & Hr)%list_elem_of_fmap Hi'%list_elem_of_singleton.
      apply (existsb_false_elem _ _ r) in Hex; [|done].
      apply orb_false_iff in Hex as [Hex _]. apply bool_decide_eq_false_1 in Hex.
      apply Hex. simpl. congruence.
    + apply NoDup_app. split; [done|]. split; [|apply NoDup_singleton].
      intros i (r & Hi & Hr)%list_elem_of_fmap Hi'%list_elem_of_singleton.
      apply (Hcases r Hr). congruence.
  - destruct Hcases as [Hu0 Hsub0]. cbn [snd db on_users on_pending users].
    rewrite store_user_ids, store_refreshed_subs by done.
    unfold store_user. rewrite length_fmap. repeat split; [done|done|lia].
Qed.
End oidc_facts.


(** * The further properties on the fixtures *)

Lemma publish_reaches_no_other_user_witness :
  let ops := [Sse.Subscribe "alice"; Sse.Subscribe "bob"] in
  (1%nat ∉ Sse.dict_get "alice" (Sse.subscribers (Sse.run Fixtures.json_dumps ops Sse.empty_broker)))
  ∧ Sse.queues (Sse.publish Fixtures.json_dumps "alice" "notification" JNull
                  (Sse.run Fixtures.json_dumps ops Sse.empty_broker)) !! 1%nat
    = Sse.queues (Sse.run Fixtures.json_dumps ops Sse.empty_broker) !! 1%nat.
Proof.
  intros ops.
  apply (publish_reaches_no_other_user Fixtures.json_dumps ops "alice" "bob"
           "notification" JNull 1%nat).
  - discriminate.
  - assert (Sse.dict_get "bob" (Sse.subscribers (Sse.run Fixtures.json_dumps ops Sse.empty_broker))
            = {[1%nat]}) as -> by (by vm_compute).
    set_solver.
Defined.

Lemma queued_events_are_kept_witness :
  let b := (Sse.subscribe "alice" Sse.empty_broker).2 in
  let b1 := Sse.publish Fixtures.json_dumps "alice" "notification" JNull b in
  ∃ l', Sse.queues (Sse.run Fixtures.json_dumps
                      [Sse.Unsubscribe "alice" 0%nat; Sse.Subscribe "alice";
                       Sse.Publish "alice" "status_change" JNull] b1) !! 0%nat
        = Some ([Sse.Event "notification" "{}"] ++ l').
Proof.
  intros b b1.
  apply (queued_events_are_kept Fixtures.json_dumps _ b1 0%nat
           [Sse.Event "notification" "{}"]).
  reflexivity.
Defined.

Lemma session_valid_for_seven_days_witness :
  Auth.validate_session Fixtures.sign Fixtures.SECRET_KEY Fixtures.session_cookie 604800
  = Ok (Some "user-123")
  ∧ Auth.validate_session Fixtures.sign Fixtures.SECRET_KEY Fixtures.session_cookie 604801
    = Ok None.
Proof.
  split.
  - apply (session_valid_for_seven_days Fixtures.sign Fixtures.SECRET_KEY "user-123"
             0%Z 604800%Z). lia.
  - apply (session_valid_for_seven_days Fixtures.sign Fixtures.SECRET_KEY "user-123"
             0%Z 604801%Z). lia.
Defined.

Lemma session_forgeries_rejected_witness :
  Auth.validate_session Fixtures.sign "secret-2" (Auth.Unsigned "garbage") 0 = Ok None
  ∧ Auth.validate_session Fixtures.sign "secret-2"
      (Auth.create_session Fixtures.sign "secret-1" "user-123" 0) 0 = Ok None.
Proof.
  destruct (session_forgeries_rejected Fixtures.sign "secret-2" 0%Z) as (Hshape & _ & Hkey).
  split; [apply Hshape|]. apply Hkey. discriminate.
Defined.

Lemma require_session_ignores_bearer_tokens_witness :
  Auth.require_session Fixtures.sign
    (Auth.mkRequest ∅ (Fixtures.bearer Fixtures.TEST_TOKEN_PLAINTEXT))
    Fixtures.SECRET_KEY 60 Fixtures.test_db
  = (Raise (HTTPException 401 "Session required"), Fixtures.test_db).
Proof.
  apply (require_session_ignores_bearer_tokens Fixtures.sign ∅
           (Fixtures.bearer Fixtures.TEST_TOKEN_PLAINTEXT) ∅ Fixtures.SECRET_KEY 60%Z
           Fixtures.test_db).
  reflexivity.
Defined.

Lemma revoke_token_of_other_user_is_not_found_witness :
  Tokens.revoke_token "token-2" Fixtures.test_user Fixtures.test_db
  = (Raise (HTTPException 404 "Token not found"), Fixtures.test_db)
  ∧ Tokens.revoke_token "nonexistent" Fixtures.test_user Fixtures.test_db
    = (Raise (HTTPException 404 "Token not found"), Fixtures.test_db).
Proof.
  split; apply revoke_token_of_other_user_is_not_found; simpl;
    intros ct [->|Hct%list_elem_of_singleton]%elem_of_cons; [|subst ct| |subst ct];
    simpl; discriminate.
Defined.

Lemma revoke_leaves_other_tokens_working_witness :
  let request := Auth.mkRequest ∅ (Fixtures.bearer "other-token") in
  (Auth.get_current_user_from_token Fixtures.checkpw request 60
     (Tokens.delete_token Fixtures.test_token Fixtures.test_db)).1
  = Ok (Some Fixtures.other_user).
Proof.
  intros request.
  rewrite (revoke_leaves_other_tokens_working Fixtures.checkpw request "other-token" 60%Z
             Fixtures.test_token Fixtures.test_db).
  - reflexivity.
  - reflexivity.
  - vm_compute. lia.
  - simpl. intros ct [->|Hct%list_elem_of_singleton]%elem_of_cons; [|subst ct]; simpl.
    + discriminate.
    + reflexivity.
Defined.

Lemma create_then_revoke_restores_tokens_witness :
  ∃ token db1,
    Tokens.create_token Fixtures.hashpw "To Revoke" other Fixtures.test_user
      "fresh-token" "salt-3" "token-3" 30 Fixtures.test_db
    = (Ok (token, "fresh-token"), db1)
    ∧ token ∈ client_tokens db1
    ∧ Tokens.revoke_token "token-3" Fixtures.test_user db1 = (Ok tt, Fixtures.test_db).
Proof.
  apply (create_then_revoke_restores_tokens Fixtures.hashpw "To Revoke" other
           Fixtures.test_user "fresh-token" "salt-3" "token-3" 30%Z Fixtures.test_db).
  simpl. intros ct [->|Hct%list_elem_of_singleton]%elem_of_cons; [|subst ct];
    simpl; split; discriminate.
Defined.

Lemma create_notification_stores_unread_and_publishes_witness :
  ∃ resp a',
    Notifications.create_notification Fixtures.json_dumps Fixtures.model_dump
      (Notifications.mkCreate "Test alert" None high (Some "ci") None)
      Fixtures.test_user "n-9" 50 Fixtures.inbox_app
    = (Ok resp, a')
    ∧ Notification.status resp = unread
    ∧ Notification.read_at resp = None
    ∧ NotificationViews.get_notification "n-9" Fixtures.test_user a' = (Ok resp, a').
Proof.
  destruct (create_notification_stores_unread_and_publishes Fixtures.json_dumps
              Fixtures.model_dump
              (Notifications.mkCreate "Test alert" None high (Some "ci") None)
              Fixtures.test_user "n-9" 50%Z Fixtures.inbox_app)
    as (resp & a' & Hrun & _ & _ & Hstatus & Hread & _ & _ & Hget).
  - simpl. intros n Hn. repeat (apply elem_of_cons in Hn as [->|Hn]; [discriminate|]).
    by apply elem_of_nil in Hn.
  - by exists resp, a'.
Defined.

Lemma foreign_notification_is_not_found_witness :
  NotificationViews.get_notification "n-2" Fixtures.test_user Fixtures.inbox_app
  = (Raise (HTTPException 404 "Notification not found"), Fixtures.inbox_app)
  ∧ Notifications.update_notification Fixtures.json_dumps "n-2"
      (Notifications.mkUpdate (Some archived)) Fixtures.test_user 60 Fixtures.inbox_app
    = (Raise (HTTPException 404 "Notification not found"), Fixtures.inbox_app)
  ∧ NotificationViews.delete_notification "n-2" Fixtures.test_user Fixtures.inbox_app
    = (Raise (HTTPException 404 "Notification not found"), Fixtures.inbox_app).
Proof.
  apply (foreign_notification_is_not_found Fixtures.json_dumps "n-2"
           (Notifications.mkUpdate (Some archived)) Fixtures.test_user 60%Z
           Fixtures.inbox_app).
  simpl. intros n Hn Hid.
  repeat (apply elem_of_cons in Hn as [->|Hn]; [discriminate|]).
  by apply elem_of_nil in Hn.
Defined.

Lemma inbox_pk : notifications_pk Fixtures.inbox_db.
Proof.
  unfold notifications_pk. simpl.
  repeat (apply NoDup_cons; split; [set_solver|]). apply NoDup_nil_2.
Qed.

Lemma delete_notification_removes_the_row_witness :
  ∃ a',
    NotificationViews.delete_notification "n-1" Fixtures.test_user Fixtures.inbox_app
    = (Ok tt, a')
    ∧ Notifications.broker a' = Notifications.broker Fixtures.inbox_app
    ∧ NotificationViews.get_notification "n-1" Fixtures.test_user a'
      = (Raise (HTTPException 404 "Notification not found"), a').
Proof.
  destruct (delete_notification_removes_the_row "n-1" Fixtures.test_user
              Fixtures.inbox_app Fixtures.test_notification)
    as (a' & Hrun & Hbroker & _ & _ & Hget).
  - apply inbox_pk.
  - simpl. left.
  - reflexivity.
  - reflexivity.
  - by exists a'.
Defined.

Lemma update_notification_writes_two_columns_witness :
  ∃ resp a',
    Notifications.update_notification Fixtures.json_dumps "n-3"
      (Notifications.mkUpdate (Some archived)) Fixtures.test_user 60 Fixtures.inbox_app
    = (Ok resp, a')
    ∧ Notification.status resp = archived
    ∧ client_tokens (Notifications.db a') = client_tokens Fixtures.inbox_db.
Proof.
  destruct (update_notification_writes_two_columns Fixtures.json_dumps "n-3"
              (Notifications.mkUpdate (Some archived)) Fixtures.test_user 60%Z
              Fixtures.inbox_app Fixtures.second_notification)
    as (resp & a' & Hrun & _ & Hstatus & _ & Htokens & _).
  - apply inbox_pk.
  - simpl. right. right. left.
  - reflexivity.
  - reflexivity.
  - by exists resp, a'.
Defined.

Lemma list_notifications_page_size_witness :
  ∃ page,
    NotificationViews.list_notifications None None None None 1 0
      Fixtures.test_user Fixtures.inbox_app
    = (Ok page, Fixtures.inbox_app)
    ∧ NotificationViews.total page = 2%Z
    ∧ Z.of_nat (length (NotificationViews.items page)) = 1%Z.
Proof.
  destruct (list_notifications_page_size None None None None 1%Z 0%Z
              Fixtures.test_user Fixtures.inbox_app) as (page & Hrun & Htotal & Hlen);
    [lia|lia|].
  exists page. split; [exact Hrun|]. split.
  - rewrite Htotal. reflexivity.
  - rewrite Hlen, Htotal. reflexivity.
Defined.

Lemma list_notifications_items_are_own_and_ordered_witness :
  ∃ page,
    NotificationViews.list_notifications None None None None 50 0
      Fixtures.test_user Fixtures.inbox_app = (Ok page, Fixtures.inbox_app)
    ∧ NotificationViews.items page
      = [Fixtures.second_notification; Fixtures.test_notification]
    ∧ Forall (λ n, n ∈ notifications (Notifications.db Fixtures.inbox_app)
                   ∧ Notification.user_id n = User.id Fixtures.test_user
                   ∧ NotificationViews.matches None None None None Fixtures.test_user n
                     = true)
             (NotificationViews.items page)
    ∧ StronglySorted
        (λ x y, (Notification.created_at y ≤ Notification.created_at x)%Z)
        (NotificationViews.items page).
Proof.
  eexists. split; [reflexivity|]. split; [by vm_compute|].
  eapply proj2.
  eapply (list_notifications_items_are_own_and_ordered None None None None 50%Z 0%Z
            Fixtures.test_user Fixtures.inbox_app).
  reflexivity.
Defined.

Lemma list_notifications_out_of_range_witness :
  NotificationViews.list_notifications None None None None 50 (2 ^ 63)
    Fixtures.test_user Fixtures.inbox_app
  = (Raise OverflowError, Fixtures.inbox_app).
Proof.
  apply (list_notifications_out_of_range None None None None 50%Z (2 ^ 63)%Z
           Fixtures.test_user Fixtures.inbox_app).
  left. lia.
Defined.

Lemma list_notifications_pages_compose_witness :
  ∃ p1 p2 p12,
    NotificationViews.list_notifications None None None None 1 0
      Fixtures.test_user Fixtures.inbox_app = (Ok p1, Fixtures.inbox_app)
    ∧ NotificationViews.list_notifications None None None None 1 (0 + 1)
        Fixtures.test_user Fixtures.inbox_app = (Ok p2, Fixtures.inbox_app)
    ∧ NotificationViews.list_notifications None None None None (1 + 1) 0
        Fixtures.test_user Fixtures.inbox_app = (Ok p12, Fixtures.inbox_app)
    ∧ NotificationViews.items p1 ++ NotificationViews.items p2
      = NotificationViews.items p12.
Proof.
  apply (list_notifications_pages_compose None None None None 1%Z 1%Z 0%Z
           Fixtures.test_user Fixtures.inbox_app); lia.
Defined.

Lemma list_notifications_source_filter_witness :
  ∃ page,
    NotificationViews.list_notifications None None None (Some "ci") 50 0
      Fixtures.test_user Fixtures.inbox_app = (Ok page, Fixtures.inbox_app)
    ∧ NotificationViews.items page = [Fixtures.second_notification]
    ∧ Forall (λ n, Notification.source n = Some "ci") (NotificationViews.items page).
Proof.
  eexists. split; [reflexivity|]. split; [by vm_compute|].
  apply (proj2 (list_notifications_source_filter None None None 50%Z 0%Z
                  Fixtures.test_user Fixtures.inbox_app) "ci").
  - discriminate.
  - reflexivity.
Defined.

Lemma oidc_state_is_single_use_witness :
  Oidc.callback Fixtures.sign Fixtures.settings "state-0" (Ok Fixtures.known_claims)
    "user-789" 30 Fixtures.login_state
  = (Ok (Oidc.Redirect "/auth/login" 307 None false), Fixtures.login_state)
  ∧ ("state-1" ∉ Oidc.pending_states
       (Oidc.callback Fixtures.sign Fixtures.settings "state-1" (Ok Fixtures.known_claims)
          "user-789" 30 Fixtures.login_state).2).
Proof.
  split.
  - apply (proj1 (oidc_state_is_single_use Fixtures.sign Fixtures.settings "state-0"
                    (Ok Fixtures.known_claims) "user-789" 30%Z Fixtures.login_state)).
    simpl. set_solver.
  - apply (oidc_state_is_single_use Fixtures.sign Fixtures.settings "state-1"
             (Ok Fixtures.known_claims) "user-789" 30%Z Fixtures.login_state).
Defined.

Lemma login_records_state_first_witness :
  Oidc.login Fixtures.settings "state-2" (Raise (HTTPException 502 "Bad Gateway"))
    Fixtures.login_state
  = (Raise (HTTPException 502 "Bad Gateway"),
     Oidc.on_pending (λ s, s ∪ {["state-2"]}) Fixtures.login_state).
Proof.
  apply (login_records_state_first Fixtures.settings "state-2"
           (Raise (HTTPException 502 "Bad Gateway")) Fixtures.login_state).
  reflexivity.
Defined.

Lemma test_users_ids : NoDup (User.id <$> users Fixtures.test_db).
Proof. simpl. repeat (apply NoDup_cons; split; [set_solver|]). apply NoDup_nil_2. Qed.

Lemma test_users_subs : NoDup (User.sub <$> users Fixtures.test_db).
Proof. simpl. repeat (apply NoDup_cons; split; [set_solver|]). apply NoDup_nil_2. Qed.

Lemma callback_logs_the_user_in_witness :
  ∃ u cookie st',
    Oidc.callback Fixtures.sign Fixtures.settings "state-1" (Ok Fixtures.known_claims)
      "user-789" 30 Fixtures.login_state
    = (Ok (Oidc.Redirect "/" 302 (Some cookie) false), st')
    ∧ User.id u = "user-123"
    ∧ User.email u = "new@example.com"
    ∧ Auth.require_session Fixtures.sign
        (Auth.mkRequest {[Auth.SESSION_COOKIE := cookie]} ∅)
        Fixtures.SECRET_KEY 90 (Oidc.db st')
      = (Ok u, Oidc.db st').
Proof.
  destruct (callback_logs_the_user_in Fixtures.sign Fixtures.settings "state-1"
              Fixtures.known_claims "test-sub-123" "user-789" 30%Z 90%Z ∅
              Fixtures.login_state)
    as (u & cookie & st' & Hrun & Hin & Hsub & Hemail & _ & Hsession).
  - simpl. set_solver.
  - reflexivity.
  - apply test_users_ids.
  - apply test_users_subs.
  - simpl. intros r [->|Hr%list_elem_of_singleton]%elem_of_cons; [|subst r];
      split; discriminate.
  - discriminate.
  - unfold Auth.SESSION_MAX_AGE. lia.
  - exists u, cookie, st'. split; [exact Hrun|].
    assert (st' = (Oidc.callback Fixtures.sign Fixtures.settings "state-1"
                     (Ok Fixtures.known_claims) "user-789" 30 Fixtures.login_state).2)
      as Hst by (by rewrite Hrun).
    split; [|by split].
    rewrite Hst in Hin. vm_compute in Hin.
    apply elem_of_cons in Hin as [->|Hin]; [reflexivity|].
    apply list_elem_of_singleton in Hin. subst u. vm_compute in Hsub. discriminate.
Defined.

Lemma callback_keeps_user_keys_unique_witness :
  NoDup (User.sub <$> users (Oidc.db
           (Oidc.callback Fixtures.sign Fixtures.settings "state-1" (Ok Fixtures.new_claims)
              "user-789" 30 Fixtures.login_state).2))
  ∧ (length (users (Oidc.db
               (Oidc.callback Fixtures.sign Fixtures.settings "state-1"
                  (Ok Fixtures.new_claims) "user-789" 30 Fixtures.login_state).2))
     ≤ 3)%nat.
Proof.
  destruct (callback_keeps_user_keys_unique Fixtures.sign Fixtures.settings "state-1"
              (Ok Fixtures.new_claims) "user-789" 30%Z Fixtures.login_state
              test_users_ids test_users_subs) as (_ & Hsubs & Hlen & _).
  split; [exact Hsubs | exact Hlen].
Defined.
